(** * elysia-oauth2: the OAuth 2.0 plugin of [src/index.ts]

    A shallow embedding of the plugin built by [oauth2]: the three route
    handlers (login, authorized, logout) and the per-request capabilities
    ([authorized], [tokenHeaders]) that [derive] attaches to the context.

    - JavaScript values are an inductive type; an object is the list of its
      own properties in enumeration order.
    - Everything the plugin asks of its surroundings (the state and storage
      collaborators, [fetch], the jwt and cookie plugins, [Date.now] and the
      two string built-ins it calls) is an effect.  A handler is a finite
      tree of such calls, and a run of a handler is a path through that
      tree together with the answers it received.
    - Numbers are rationals: the plugin divides [Date.now()] by 1000,
      defaults [expires_in] and compares, and these are taken exactly.
    - Strings are byte strings. *)

From Stdlib Require Import String Ascii List Bool ZArith QArith Lia DecimalString Permutation.
Import ListNotations.
Open Scope string_scope.
Open Scope list_scope.

Set Implicit Arguments.
Set Warnings "-register-all".

(* ================================================================== *)
(** ** JavaScript values and objects *)

Module Js.

(** A JavaScript value.  An array is an object whose class is Array and
    whose properties are its indices (the non-enumerable [length] is left
    implicit). *)
Inductive Value : Type :=
| VUndefined
| VNull
| VBool (b : bool)
| VNum (q : Q)
| VStr (s : string)
| VObj (is_array : bool) (props : list (string * Value)).

(** Own enumerable properties, in the order [for ... in], spread and
    [Object.keys] see them: array indices ascending, then the other keys
    in creation order. *)
Definition Props (V : Type) : Type := list (string * V).
Definition Obj : Type := Props Value.

(** [k] is an array index: the canonical decimal form of an integer below
    2^32 - 1. *)
Definition array_index (k : string) : option N :=
  match NilEmpty.uint_of_string k with
  | Some u =>
      let n := N.of_uint u in
      if String.eqb (NilZero.string_of_uint (N.to_uint n)) k && (n <? 4294967295)%N
      then Some n else None
  | None => None
  end.

Section Properties.
Context {V : Type}.

(** [o[k]] for an own property. *)
Fixpoint lookup (k : string) (o : Props V) : option V :=
  match o with
  | [] => None
  | (k', v) :: rest => if String.eqb k k' then Some v else lookup k rest
  end.

Definition hasOwn (k : string) (o : Props V) : bool :=
  match lookup k o with Some _ => true | None => false end.

(** Writing an existing property keeps its place. *)
Fixpoint overwrite (k : string) (v : V) (o : Props V) : Props V :=
  match o with
  | [] => []
  | (k', v') :: rest =>
      if String.eqb k k' then (k', v) :: rest
      else (k', v') :: overwrite k v rest
  end.

(** A new index goes among the indices, in ascending order. *)
Fixpoint insert_index (i : N) (k : string) (v : V) (o : Props V) : Props V :=
  match o with
  | [] => [(k, v)]
  | (k', v') :: rest =>
      match array_index k' with
      | Some j => if (i <? j)%N then (k, v) :: o
                  else (k', v') :: insert_index i k v rest
      | None => (k, v) :: o
      end
  end.

(** Creating a property. *)
Definition define (k : string) (v : V) (o : Props V) : Props V :=
  match array_index k with
  | Some i => insert_index i k v o
  | None => o ++ [(k, v)]
  end.

(** [o[k] = v]. *)
Definition set (k : string) (v : V) (o : Props V) : Props V :=
  match lookup k o with
  | Some _ => overwrite k v o
  | None => define k v o
  end.

(** Copying every property of [source] onto [target], in [source]'s
    order (CopyDataProperties). *)
Definition assign (target source : Props V) : Props V :=
  fold_left (fun acc kv => set (fst kv) (snd kv) acc) source target.

(** The object literal [{ ...a, ...b }]. *)
Definition spread2 (a b : Props V) : Props V :=
  assign (assign [] a) b.
End Properties.

(** [o.k], [undefined] when absent. *)
Definition get (k : string) (o : Obj) : Value :=
  match lookup k o with Some v => v | None => VUndefined end.

(** [v ?? d]. *)
Definition nullish_or (v d : Value) : Value :=
  match v with
  | VUndefined | VNull => d
  | _ => v
  end.

Fixpoint string_chars (i : N) (s : string) : Obj :=
  match s with
  | EmptyString => []
  | String c rest =>
      (NilZero.string_of_uint (N.to_uint i), VStr (String c EmptyString))
        :: string_chars (N.succ i) rest
  end.

(** What [...v] copies: the own enumerable properties of an object, the
    characters of a string, nothing for the other primitives. *)
Definition own_enumerable (v : Value) : Obj :=
  match v with
  | VObj _ props => props
  | VStr s => string_chars 0 s
  | _ => []
  end.

(** *** Strings *)

Definition startsWith (s pre : string) : bool := String.prefix pre s.

Definition drop (n : nat) (s : string) : string :=
  String.substring n (String.length s - n) s.

(** The text before and after the first occurrence of [pat] in [s]. *)
Fixpoint split_at_first (pat s : string) : option (string * string) :=
  if String.prefix pat s then Some ("", drop (String.length pat) s)
  else
    match s with
    | EmptyString => None
    | String c rest =>
        match split_at_first pat rest with
        | Some (before, after) => Some (String c before, after)
        | None => None
        end
    end.

(** The replacement text of [String.prototype.replace] for a string
    pattern: [$$], [$&], [$`] and [$'] are the only patterns that expand
    (there are no captures). *)
Fixpoint GetSubstitution (matched before after replacement : string) : string :=
  match replacement with
  | EmptyString => ""
  | String c rest =>
      if Ascii.eqb c "$" then
        match rest with
        | EmptyString => "$"
        | String d rest' =>
            if Ascii.eqb d "$" then
              String "$" (GetSubstitution matched before after rest')
            else if Ascii.eqb d "&" then
              matched ++ GetSubstitution matched before after rest'
            else if Ascii.eqb d "`" then
              before ++ GetSubstitution matched before after rest'
            else if Ascii.eqb d "'" then
              after ++ GetSubstitution matched before after rest'
            else String c (GetSubstitution matched before after rest)
        end
      else String c (GetSubstitution matched before after rest)
  end.

(** [s.replace(pat, replacement)] with a string pattern: the first
    occurrence only. *)
Definition replace (s pat replacement : string) : string :=
  match split_at_first pat s with
  | None => s
  | Some (before, after) =>
      before ++ GetSubstitution pat before after replacement ++ after
  end.

(** The names every ordinary object inherits from [Object.prototype]. *)
Definition Object_prototype_keys : list string :=
  [ "constructor"; "__defineGetter__"; "__defineSetter__"; "hasOwnProperty";
    "__lookupGetter__"; "__lookupSetter__"; "isPrototypeOf";
    "propertyIsEnumerable"; "toString"; "valueOf"; "__proto__";
    "toLocaleString" ].

(** [k in o] for an ordinary object [o]: own or inherited. *)
Definition has_property {V : Type} (k : string) (o : Props V) : bool :=
  hasOwn k o || existsb (String.eqb k) Object_prototype_keys.

(** A template literal with one interpolation, or a plain literal.  The
    conversion of the interpolated value to text is the runtime's. *)
Inductive Text : Type :=
| Lit (s : string)
| Interp (prefix : string) (v : Value).

End Js.

(** The text a template literal evaluates to.  Printing a number is the
    runtime's [Number::toString], taken as given. *)
Section ToString.
Variable Number_toString : Q -> string.

Fixpoint ToString (v : Js.Value) : string :=
  match v with
  | Js.VUndefined => "undefined"
  | Js.VNull => "null"
  | Js.VBool true => "true"
  | Js.VBool false => "false"
  | Js.VNum q => Number_toString q
  | Js.VStr s => s
  | Js.VObj false _ => "[object Object]"
  | Js.VObj true props =>
      String.concat ","
        ((fix items (l : list (string * Js.Value)) : list string :=
            match l with
            | [] => []
            | (k, x) :: rest =>
                match Js.array_index k with
                | Some _ =>
                    match x with
                    | Js.VUndefined | Js.VNull => ""
                    | _ => ToString x
                    end :: items rest
                | None => items rest
                end
            end) props)
  end.

Definition render (t : Js.Text) : string :=
  match t with
  | Js.Lit s => s
  | Js.Interp prefix v => prefix ++ ToString v
  end.
End ToString.

(* ================================================================== *)
(** ** The data of the plugin *)

(** [TOAuth2Url]; [params] is a [Record<string, string | number | boolean>]. *)
Record TOAuth2Url : Type := {
  url : string;
  params : Js.Obj
}.

Record TOAuth2Provider : Type := {
  auth : TOAuth2Url;
  token : TOAuth2Url;
  profile : TOAuth2Url;
  clientId : string;
  clientSecret : string
}.

Record TOAuth2Profile : Type := {
  scope : list string;
  provider : TOAuth2Provider
}.

(** The options of [oauth2] that the handlers read.  [profiles] is an
    ordinary object, given by its own properties; [state] and [storage] are
    the collaborators behind the effects below; [jwt] and [cookie] only
    configure the two plugins behind [JwtSign], [JwtVerify] and
    [SetCookie]. *)
Record TPluginParams : Type := {
  profiles : Js.Props TOAuth2Profile;
  login : option string;
  authorized : option string;
  logout : option string;
  host : option string;
  prefix : option string;
  redirectTo : option string
}.

(** The two variables of [Bun.env] that the refresh reads. *)
Record BunEnv : Type := {
  TWITCH_OAUTH_CLIENT_ID : option string;
  TWITCH_CLIENT_SECRET : option string
}.

(** The incoming [Request] object, as handed to the collaborators. *)
Record Request : Type := {
  request_url : string;
  request_headers : list (string * string)
}.

(** The handler context: [request], [params.name], [query.code],
    [query.state] and [cookie.authorize]. *)
Record Context : Type := {
  request : Request;
  name : string;
  code : option string;
  callbackState : option string;
  cookie_authorize : option string
}.

Inductive Method : Type := GET | POST.

(** A call of [fetch].  [body] is the [URLSearchParams] whose [toString()]
    is sent, given by the record it was built from. *)
Record FetchRequest : Type := {
  fetch_url : string;
  method : Method;
  headers : list (string * Js.Text);
  body : option Js.Obj
}.

(** What the plugin reads of a [Response]: [status], [statusText], the
    [Content-Type] header, [text()] and [json()] ([None] when the body is
    not JSON text). *)
Record Response : Type := {
  status : N;
  statusText : string;
  content_type : option string;
  text : string;
  json : option Js.Value
}.

Definition ok (r : Response) : bool :=
  ((200 <=? status r) && (status r <=? 299))%N.

(** [response.headers.get('Content-Type')?.startsWith('application/json')],
    as a condition. *)
Definition json_content_type (r : Response) : bool :=
  match content_type r with
  | Some ct => Js.startsWith ct "application/json"
  | None => false
  end.

(** The options of [setCookie] that the plugin passes: [expires] is a
    [Date], in milliseconds. *)
Record CookieOptions : Type := {
  expires : option Z;
  maxAge : option Js.Value
}.

(** An absolute URL with its query: the [searchParams] in order, and the
    scope parameter by the list it is joined from. *)
Record Url : Type := {
  endpoint : string;
  searchParams : Js.Obj;
  scope_param : list string
}.

(** What a handler gives back to the framework: a [Response] it built, a
    redirect [Response], or a plain object with a [message]. *)
Inductive HandlerResult : Type :=
| HResponse (status : N) (statusText : string) (body : string)
| HRedirect (location : Url)
| HMessage (message : string).

Inductive Exception : Type :=
| Error (message : string)
| TypeError
| SyntaxError
| URIError.

(* ================================================================== *)
(** ** Effects, programs and runs *)

(** The calls open to a handler, each with the type of its answer: the
    [OAuth2State] and [OAuth2Storage] collaborators, [fetch], the jwt and
    cookie plugins, the response [set], and the built-ins.  The
    collaborators answer within their declared signatures: a run is one
    in which every call made returns.  A [fetch] that rejects or a
    [jwt.sign] that fails ends the handler with that exception at that
    call; such runs are not among the runs below, and nothing here speaks
    of them. *)
Inductive Effect : Type -> Type :=
| StateGenerate (req : Request) (name : string) : Effect string
| StateCheck (req : Request) (name : string) (state : option string) : Effect bool
| StorageSet (req : Request) (name : string) (token : Js.Value) : Effect unit
| StorageGet (req : Request) (name : string) (id : string) : Effect (option Js.Obj)
| StorageDelete (req : Request) (name : string) (id : string) : Effect unit
| Fetch (r : FetchRequest) : Effect Response
| JwtSign (payload : Js.Value) : Effect string
| JwtVerify (jwt : option string) : Effect (option Js.Obj)
| SetCookie (name : string) (value : Js.Value) (options : option CookieOptions) : Effect unit
| SetStatus (status : string) : Effect unit
| SetRedirect (uri : string) : Effect unit
| DateNow : Effect Z
| DecodeURIComponent (s : string) : Effect (option string)
| Btoa (s : string) : Effect string.

(** An async function body: it returns, throws, or makes a call and goes on
    with the answer. *)
Inductive Prog (R : Type) : Type :=
| Ret (r : R)
| Throw (e : Exception)
| Call (A : Type) (e : Effect A) (k : A -> Prog R).

Arguments Ret {R} r.
Arguments Throw {R} e.
Arguments Call {R A} e k.

Fixpoint bind {A B : Type} (p : Prog A) (f : A -> Prog B) : Prog B :=
  match p with
  | Ret a => f a
  | Throw e => Throw e
  | Call e k => Call e (fun x => bind (k x) f)
  end.

Definition call {A : Type} (e : Effect A) : Prog A := Call e Ret.

Notation "x <- c ;; k" := (bind c (fun x => k))
  (at level 61, c at next level, right associativity).
Notation "c ;; k" := (bind c (fun _ => k))
  (at level 61, right associativity).

(** One observed call: the effect and the answer it got. *)
Inductive Obs : Type :=
| Observed (A : Type) (e : Effect A) (a : A).

Arguments Observed {A} e a.

Definition Trace : Type := list Obs.

Inductive Outcome (R : Type) : Type :=
| Returned (r : R)
| Thrown (e : Exception).

Arguments Returned {R} r.
Arguments Thrown {R} e.

(** [run p tr out]: [p] can make exactly the calls of [tr], receive the
    answers recorded there, and end with [out]. *)
Fixpoint run {R : Type} (p : Prog R) (tr : Trace) (out : Outcome R) : Prop :=
  match p with
  | Ret r => tr = [] /\ out = Returned r
  | Throw e => tr = [] /\ out = Thrown e
  | Call e k => exists a tr', tr = Observed e a :: tr' /\ run (k a) tr' out
  end.

(** The surroundings as a function: the answer to the [n]-th call. *)
Definition Environment : Type := forall A : Type, nat -> Effect A -> A.

(** Running a program against an environment, from call number [n]. *)
Fixpoint exec {R : Type} (env : Environment) (n : nat) (p : Prog R) : Trace * Outcome R :=
  match p with
  | Ret r => ([], Returned r)
  | Throw e => ([], Thrown e)
  | Call e k =>
      let a := env _ n e in
      let '(tr, out) := exec env (S n) (k a) in
      (Observed e a :: tr, out)
  end.

(** The kind of call an observation records. *)
Inductive Kind : Type :=
| KStateGenerate | KStateCheck | KStorageSet | KStorageGet | KStorageDelete | KFetch
| KJwtSign | KJwtVerify | KSetCookie | KSetStatus | KSetRedirect
| KDateNow | KDecodeURIComponent | KBtoa.

Definition kind_of (o : Obs) : Kind :=
  match o with
  | Observed e _ =>
      match e with
      | StateGenerate _ _ => KStateGenerate
      | StateCheck _ _ _ => KStateCheck
      | StorageSet _ _ _ => KStorageSet
      | StorageGet _ _ _ => KStorageGet
      | StorageDelete _ _ _ => KStorageDelete
      | Fetch _ => KFetch
      | JwtSign _ => KJwtSign
      | JwtVerify _ => KJwtVerify
      | SetCookie _ _ _ => KSetCookie
      | SetStatus _ => KSetStatus
      | SetRedirect _ => KSetRedirect
      | DateNow => KDateNow
      | DecodeURIComponent _ => KDecodeURIComponent
      | Btoa _ => KBtoa
      end
  end.

Definition Kind_eqb (a b : Kind) : bool :=
  match a, b with
  | KStateGenerate, KStateGenerate | KStateCheck, KStateCheck
  | KStorageSet, KStorageSet | KStorageGet, KStorageGet
  | KStorageDelete, KStorageDelete | KFetch, KFetch
  | KJwtSign, KJwtSign | KJwtVerify, KJwtVerify | KSetCookie, KSetCookie
  | KSetStatus, KSetStatus | KSetRedirect, KSetRedirect
  | KDateNow, KDateNow | KDecodeURIComponent, KDecodeURIComponent
  | KBtoa, KBtoa => true
  | _, _ => false
  end.

(** How often a kind of call occurs in a trace. *)
Definition calls (k : Kind) (tr : Trace) : nat :=
  List.length (filter (fun o => Kind_eqb (kind_of o) k) tr).

(** The answer of a [state.check] call. *)
Definition state_check_answer (o : Obs) : option bool :=
  match o with
  | Observed e a =>
      match e in Effect A return A -> option bool with
      | StateCheck _ _ _ => fun b => Some b
      | _ => fun _ => None
      end a
  end.

(** The request and the response of a [fetch] call. *)
Definition fetch_exchange (o : Obs) : option (FetchRequest * Response) :=
  match o with
  | Observed e a =>
      match e in Effect A return A -> option (FetchRequest * Response) with
      | Fetch r => fun resp => Some (r, resp)
      | _ => fun _ => None
      end a
  end.

(** The token handed to [storage.set]. *)
Definition stored_token (o : Obs) : option (string * Js.Value) :=
  match o with
  | Observed e _ =>
      match e with
      | StorageSet _ n t => Some (n, t)
      | _ => None
      end
  end.

(** What [storage.get] answered. *)
Definition storage_answer (o : Obs) : option (option Js.Obj) :=
  match o with
  | Observed e a =>
      match e in Effect A return A -> option (option Js.Obj) with
      | StorageGet _ _ _ => fun t => Some t
      | _ => fun _ => None
      end a
  end.

(** The arguments of a [setCookie] call. *)
Definition cookie_set (o : Obs) : option (string * Js.Value * option CookieOptions) :=
  match o with
  | Observed e _ =>
      match e with
      | SetCookie n v opts => Some (n, v, opts)
      | _ => None
      end
  end.

(** Every call of kind [k] in [tr] comes after a [state.check] that
    answered [true]. *)
Definition after_successful_check (k : Kind) (tr : Trace) : Prop :=
  forall pre o post,
    tr = pre ++ o :: post -> kind_of o = k ->
    exists c, In c pre /\ state_check_answer c = Some true.

(* ================================================================== *)
(** ** [./utils]

    [index.ts] imports [buildUrl], [isTokenValid] and [redirect] from
    [./utils]. *)

(** Modelled from the spec: [buildUrl] of [./utils], which is not among the
    sources.  The spec (4.2) has the authorization URL carry the merged
    parameters and, appended, the profile's scope as one scope parameter
    whose joining is the provider's convention. *)
Definition buildUrl (url : string) (params : Js.Obj) (scope : list string) : Url :=
  {| endpoint := url; searchParams := params; scope_param := scope |}.

(** Modelled from the spec: [redirect] of [./utils], which is not among the
    sources.  The spec (4.3, step 1) has login issue an HTTP redirect to
    the authorization URL. *)
Definition redirect (location : Url) : HandlerResult := HRedirect location.

(** Modelled from the spec: [isTokenValid] of [./utils], which is not among
    the sources.  The spec (4.4) has validity decided by the local expiry
    computation [now < created_at + expires_in], in seconds, a token
    without expiry information counting as valid. *)
Definition isTokenValid (token : Js.Obj) : Prog bool :=
  now <- call DateNow ;;
  match Js.get "created_at" token, Js.get "expires_in" token with
  | Js.VNum created_at, Js.VNum expires_in =>
      Ret (negb (Qle_bool (created_at + expires_in) (now # 1000)))
  | _, _ => Ret true
  end.

(* ================================================================== *)
(** ** The plugin: [oauth2] *)

(** [if (!x) { x = d }] on an optional string: [undefined] and the empty
    string are falsy. *)
Definition or_default (x : option string) (d : string) : string :=
  match x with
  | Some s => if String.eqb s "" then d else s
  | None => d
  end.

Definition string_of_N (n : N) : string :=
  NilZero.string_of_uint (N.to_uint n).

(** [new Error(`${response.status}: ${response.statusText}: ${await response.text()}`)]. *)
Definition upstream_error (r : Response) : Exception :=
  Error (string_of_N (status r) ++ ": " ++ statusText r ++ ": " ++ text r).

(** What [resolveProvider] returns: the 404 [Response], a registered
    profile, or, for a name that [profiles] only inherits from
    [Object.prototype], the inherited value, which is not a [Response] and
    has neither [provider] nor [scope]. *)
Inductive Resolved : Type :=
| NotFound (r : HandlerResult)
| Registered (p : TOAuth2Profile)
| Inherited.

(** [fetch('https://id.twitch.tv/oauth2/validate', { headers: { Authorization: `OAuth ${access_token}` } })],
    made by the callback and by [authorized]. *)
Definition twitch_validate (access_token : Js.Value) : FetchRequest :=
  {| fetch_url := "https://id.twitch.tv/oauth2/validate";
     method := GET;
     headers := [ ("Authorization", Js.Interp "OAuth " access_token) ];
     body := None |}.

Section Plugin.
Variable cfg : TPluginParams.

Definition globalProfiles : Js.Props TOAuth2Profile := profiles cfg.
Definition loginPath : string := or_default (login cfg) "/login/:name".
Definition authorizedPath : string := or_default (authorized cfg) "/login/:name/authorized".
Definition logoutPath : string := or_default (logout cfg) "/logout/:name".
Definition hostName : string := or_default (host cfg) "localhost:3000".
Definition redirectToPath : string := or_default (redirectTo cfg) "/user/:name/profile".

Definition protocol : string :=
  if Js.startsWith hostName "localhost" then "http" else "https".

Definition resolveProvider (name : string) : Resolved :=
  if negb (Js.has_property name globalProfiles) then
    NotFound (HResponse 404 "Not Found" "")
  else
    match Js.lookup name globalProfiles with
    | Some p => Registered p
    | None => Inherited
    end.

Definition buildUri (template name : string) (external : bool) : string :=
  let uri := Js.replace template ":name" name in
  if external then protocol ++ "://" ++ hostName ++ or_default (prefix cfg) "" ++ uri
  else or_default (prefix cfg) "" ++ uri.

Definition buildLoginUri (name : string) (external : bool) : string :=
  buildUri loginPath name external.

Definition buildLogoutUri (name : string) (external : bool) : string :=
  buildUri logoutPath name external.

Definition buildRedirectUri (name : string) : string :=
  buildUri authorizedPath name true.

Definition buildRedirectToUri (name : string) : string :=
  buildUri redirectToPath name true.

(** The object literal [authParams] of the login handler. *)
Definition authParams (p : TOAuth2Provider) (name state : string) : Js.Obj :=
  [ ("client_id", Js.VStr (clientId p));
    ("redirect_uri", Js.VStr (buildRedirectUri name));
    ("response_type", Js.VStr "code");
    ("response_mode", Js.VStr "query");
    ("state", Js.VStr state) ].

(** [>>> LOGIN <<<] *)
Definition login_handler (req : Context) : Prog HandlerResult :=
  match resolveProvider (name req) with
  | NotFound r => Ret r
  | Inherited => Throw TypeError
  | Registered context =>
      let provider := provider context in
      state <- call (StateGenerate (request req) (name req)) ;;
      let authUrl :=
        buildUrl (url (auth provider))
          (Js.spread2 (authParams provider (name req) state) (params (auth provider)))
          (scope context) in
      Ret (redirect authUrl)
  end.

(** The object literal [tokenParams] of the authorized handler. *)
Definition tokenParams (p : TOAuth2Provider) (name code : string) : Js.Obj :=
  [ ("client_id", Js.VStr (clientId p));
    ("client_secret", Js.VStr (clientSecret p));
    ("redirect_uri", Js.VStr (buildRedirectUri name));
    ("grant_type", Js.VStr "authorization_code");
    ("code", Js.VStr code) ].

(** The end of a successful callback: store, sign, set the cookie, set
    the redirect. *)
Definition establish_session (req : Context) (stored : Js.Value) (maxAge : Js.Value)
  : Prog HandlerResult :=
  call (StorageSet (request req) (name req) stored) ;;
  signed <- call (JwtSign stored) ;;
  call (SetCookie "authorize" (Js.VStr signed)
          (Some {| expires := None; maxAge := Some maxAge |})) ;;
  call (SetStatus "Found") ;;
  call (SetRedirect (buildRedirectToUri (name req))) ;;
  Ret (HMessage "Found redirect").

(** [token.expires_in = token.expires_in ?? 3600; token.created_at = Date.now() / 1000]. *)
Definition stamp (token : Js.Obj) (now : Z) : Js.Obj :=
  Js.set "created_at" (Js.VNum (now # 1000))
    (Js.set "expires_in"
       (Js.nullish_or (Js.get "expires_in" token) (Js.VNum 3600)) token).

(** The callback from the token response on. *)
Definition receive_token (req : Context) (response : Response) : Prog HandlerResult :=
  if negb (ok response) || negb (json_content_type response)
  then Throw (upstream_error response)
  else
    match json response with
    | None => Throw SyntaxError
    | Some (Js.VObj is_array fields) =>
        now <- call DateNow ;;
        let token := stamp fields now in
        if String.eqb (name req) "twitch" then
          response <- call (Fetch (twitch_validate (Js.get "access_token" token))) ;;
          if ok response then
            match json response with
            | None => Throw SyntaxError
            | Some certificate =>
                let auth := Js.VObj false (Js.spread2 token (Js.own_enumerable certificate)) in
                establish_session req auth (Js.get "expires_in" token)
            end
          else Throw (upstream_error response)
        else
          establish_session req (Js.VObj is_array token) (Js.get "expires_in" token)
    | Some _ => Throw TypeError
    end.

(** The token request: [params] is [tokenParams] under the provider's
    token parameters, [credentials] is [btoa(clientId + ':' + clientSecret)]. *)
Definition token_request (p : TOAuth2Provider) (name code credentials : string)
  : FetchRequest :=
  {| fetch_url := url (token p);
     method := POST;
     headers :=
       [ ("Content-Type", Js.Lit "application/x-www-form-urlencoded");
         ("Accept", Js.Lit "application/json");
         ("Authorization", Js.Interp "Basic " (Js.VStr credentials)) ];
     body := Some (Js.spread2 (tokenParams p name code) (params (token p))) |}.

(** [>>> AUTHORIZED <<<] *)
Definition authorized_handler (req : Context) : Prog HandlerResult :=
  match resolveProvider (name req) with
  | NotFound r => Ret r
  | context =>
      checked <- call (StateCheck (request req) (name req) (callbackState req)) ;;
      if negb checked then Throw (Error "State mismatch")
      else
        match context with
        | Registered context =>
            let provider := provider context in
            decoded <- call (DecodeURIComponent
                               (match code req with Some c => c | None => "undefined" end)) ;;
            match decoded with
            | None => Throw URIError
            | Some code =>
                credentials <- call (Btoa (clientId provider ++ ":" ++ clientSecret provider)) ;;
                response <- call (Fetch (token_request provider (name req) code credentials)) ;;
                receive_token req response
            end
        | _ => Throw TypeError
        end
  end.

(** [>>> LOGOUT <<<] *)
Definition logout_handler (req : Context) : Prog HandlerResult :=
  match resolveProvider (name req) with
  | NotFound r => Ret r
  | _ =>
      now <- call DateNow ;;
      call (SetCookie "authorize" Js.VNull
              (Some {| expires := Some now; maxAge := Some (Js.VNum 0) |})) ;;
      call (SetStatus "OK") ;;
      call (SetRedirect (buildRedirectToUri (name req))) ;;
      Ret (HMessage "Logged out!")
  end.

End Plugin.

(** *** [derive]: the capabilities attached to every context *)

Module Derive.
Section Capabilities.
Variable env : BunEnv.

Definition env_value (x : option string) : Js.Value :=
  match x with Some s => Js.VStr s | None => Js.VUndefined end.

Definition twitch_refresh (refresh_token : Js.Value) : FetchRequest :=
  {| fetch_url := "https://id.twitch.tv/oauth2/token";
     method := POST;
     headers :=
       [ ("Content-Type", Js.Lit "application/x-www-form-urlencoded");
         ("Accept", Js.Lit "application/json") ];
     body := Some
       [ ("client_id", env_value (TWITCH_OAUTH_CLIENT_ID env));
         ("client_secret", env_value (TWITCH_CLIENT_SECRET env));
         ("refresh_token", refresh_token);
         ("grant_type", Js.VStr "refresh_token") ] |}.

(** The [twitch] branch of the loop of [authorized]. *)
Definition twitch_check (ctx : Context) (token : Js.Obj) : Prog bool :=
  response <- call (Fetch (twitch_validate (Js.get "access_token" token))) ;;
  if ok response then Ret true
  else
    newTokenResponse <- call (Fetch (twitch_refresh (Js.get "refresh_token" token))) ;;
    if ok newTokenResponse then
      match json newTokenResponse with
      | None => Throw SyntaxError
      | Some newToken =>
          call (StorageSet (request ctx) "twitch" newToken) ;;
          signed <- call (JwtSign newToken) ;;
          call (SetCookie "authorize" (Js.VStr signed) None) ;;
          Ret true
      end
    else Ret false.

(** [authorized(...profiles)]. *)
Fixpoint authorized (ctx : Context) (profiles : list string) : Prog bool :=
  match profiles with
  | [] => Ret true
  | profile :: rest =>
      token <- call (JwtVerify (cookie_authorize ctx)) ;;
      match token with
      | None => Ret false
      | Some token =>
          if String.eqb profile "twitch" then twitch_check ctx token
          else
            valid <- isTokenValid token ;;
            if negb valid then Ret false
            else authorized ctx rest
      end
  end.

Record BearerHeaders : Type := {
  Authorization : Js.Text
}.

(** [tokenHeaders(profile, id)]: [`Bearer ${token?.access_token}`]. *)
Definition tokenHeaders (ctx : Context) (profile id : string) : Prog BearerHeaders :=
  token <- call (StorageGet (request ctx) profile id) ;;
  Ret {| Authorization :=
           Js.Interp "Bearer "
             (match token with
              | Some token => Js.get "access_token" token
              | None => Js.VUndefined
              end) |}.

End Capabilities.
End Derive.

(* ================================================================== *)
(** ** Reading traces *)

(** The tokens handed to [storage.set] in a trace, in order, each with the
    profile name it was stored under. *)
Definition stored_tokens (tr : Trace) : list (string * Js.Value) :=
  flat_map (fun o => match stored_token o with Some x => [x] | None => [] end) tr.

(** The calls of a trace that reach one of the [OAuth2Storage] methods. *)
Definition storage_calls (tr : Trace) : nat :=
  calls KStorageSet tr + calls KStorageGet tr + calls KStorageDelete tr.

(** The calls that end a successful callback, for the value [stored] and
    the cookie age [age]. *)
Definition session_calls (cfg : TPluginParams) (req : Context)
    (stored age : Js.Value) (signed : string) : Trace :=
  [ Observed (StorageSet (request req) (name req) stored) tt;
    Observed (JwtSign stored) signed;
    Observed (SetCookie "authorize" (Js.VStr signed)
                (Some {| expires := None; maxAge := Some age |})) tt;
    Observed (SetStatus "Found") tt;
    Observed (SetRedirect (buildRedirectToUri cfg (name req))) tt ].

(* ================================================================== *)
(** ** A small installation

    Two profiles as in the example of the [profiles] option: [github] and
    [twitch], on the default paths and host. *)

Definition demo_provider (site : string) (extra : Js.Obj) : TOAuth2Provider :=
  {| auth := {| url := "https://" ++ site ++ "/authorize"; params := extra |};
     token := {| url := "https://" ++ site ++ "/token"; params := [] |};
     profile := {| url := "https://" ++ site ++ "/user"; params := [] |};
     clientId := "id";
     clientSecret := "secret" |}.

Definition demo_config (github_extra : Js.Obj) : TPluginParams :=
  {| profiles :=
       [ ("github", {| scope := ["user"]; provider := demo_provider "github.example" github_extra |});
         ("twitch", {| scope := []; provider := demo_provider "twitch.example" [] |}) ];
     login := None; authorized := None; logout := None;
     host := None; prefix := None; redirectTo := None |}.

Definition demo_env : BunEnv :=
  {| TWITCH_OAUTH_CLIENT_ID := Some "id"; TWITCH_CLIENT_SECRET := Some "secret" |}.

Definition demo_request : Request :=
  {| request_url := "http://localhost:3000/"; request_headers := [] |}.

(** A request for profile [name] with [?code=abc&state=xyz] and a session
    cookie. *)
Definition demo_context (name : string) : Context :=
  {| request := demo_request; name := name;
     code := Some "abc"; callbackState := Some "xyz";
     cookie_authorize := Some "cookie" |}.

Definition json_response (v : Js.Value) : Response :=
  {| status := 200; statusText := "OK";
     content_type := Some "application/json"; text := "";
     json := Some v |}.

Definition demo_bad_gateway : Response :=
  {| status := 502; statusText := "Bad Gateway";
     content_type := Some "text/html"; text := "upstream down";
     json := None |}.

(** A token response without [expires_in], and the 2xx answer of the
    validation endpoint, which carries one. *)
Definition demo_token : Js.Obj :=
  [ ("access_token", Js.VStr "X"); ("token_type", Js.VStr "bearer") ].

Definition demo_certificate : Js.Obj :=
  [ ("login", Js.VStr "user"); ("expires_in", Js.VNum 5000) ].

(** A provider that answers the token request with [token] and every
    [GET] with [certificate]. *)
Definition demo_provider_answers (token certificate : Js.Value) (r : FetchRequest)
  : Response :=
  match method r with
  | POST => json_response token
  | GET => json_response certificate
  end.

Definition demo_unauthorized : Response :=
  {| status := 401; statusText := "Unauthorized";
     content_type := Some "application/json"; text := "";
     json := Some (Js.VObj false [("status", Js.VNum 401)]) |}.

(** A verified session cookie: a token created at second [created_at]
    that lasts an hour. *)
Definition demo_session (created_at : Z) : Js.Obj :=
  [ ("access_token", Js.VStr "X"); ("refresh_token", Js.VStr "R");
    ("expires_in", Js.VNum 3600); ("created_at", Js.VNum (created_at # 1)) ].

(** Surroundings that answer [state.check] with [check], [jwt.verify] with
    [verify], [fetch] by [fetch] and [Date.now()] with [now]; the state
    token is ["s3cr3t"], every signature is ["signed"], the storage is
    empty, and the two built-ins answer as they do on ["abc"] and
    ["id:secret"]. *)
Definition demo_world (check : bool) (verify : option Js.Obj)
    (fetch : FetchRequest -> Response) (now : Z) : Environment :=
  fun A _ e =>
    match e in Effect A return A with
    | StateGenerate _ _ => "s3cr3t"
    | StateCheck _ _ _ => check
    | StorageSet _ _ _ => tt
    | StorageGet _ _ _ => None
    | StorageDelete _ _ _ => tt
    | Fetch r => fetch r
    | JwtSign _ => "signed"
    | JwtVerify _ => verify
    | SetCookie _ _ _ => tt
    | SetStatus _ => tt
    | SetRedirect _ => tt
    | DateNow => now
    | DecodeURIComponent s => Some s
    | Btoa _ => "aWQ6c2VjcmV0"
    end.

(* ================================================================== *)
(** ** [derive]: [profiles] *)

Module ProfileUrls.

(** An entry of [TOAuth2ProfileUrlMap]. *)
Record Entry : Type := {
  login : string;
  callback : string;
  logout : string
}.

(** [result[k] = v] on an ordinary object, for an object [v].  Writing
    [__proto__] reaches the setter inherited from [Object.prototype]: it
    replaces the prototype and creates no own property. *)
Definition put {V : Type} (k : string) (v : V) (o : Js.Props V) : Js.Props V :=
  if String.eqb k "__proto__" then o else Js.set k v o.

(** The object literal [{ login: ..., callback: ..., logout: ... }] of the
    loop. *)
Definition entry (cfg : TPluginParams) (profile : string) : Entry :=
  {| login := buildLoginUri cfg profile true;
     callback := buildRedirectUri cfg profile;
     logout := buildLogoutUri cfg profile true |}.

(** [profiles(...profiles)]: with no argument, [Object.keys(globalProfiles)]. *)
Definition profiles (cfg : TPluginParams) (names : list string) : Js.Props Entry :=
  let names :=
    match names with
    | [] => map fst (profiles cfg)
    | _ => names
    end in
  fold_left (fun result profile => put profile (entry cfg profile) result) names [].

End ProfileUrls.

(* ================================================================== *)
(** ** Names and templates *)

(** What [decodeURIComponent] answered. *)
Definition decode_answer (o : Obs) : option (option string) :=
  match o with
  | Observed e a =>
      match e in Effect A return A -> option (option string) with
      | DecodeURIComponent _ => fun s => Some s
      | _ => fun _ => None
      end a
  end.

(** The URI handed to [set.redirect]. *)
Definition redirect_set (o : Obs) : option string :=
  match o with
  | Observed e _ =>
      match e with
      | SetRedirect uri => Some uri
      | _ => None
      end
  end.

(** A [Content-Type] that is JSON in the usual sense: its media type,
    the header up to any parameters, is [application/json].  The test of
    the callback is compared with this reading. *)
Definition json_media_type (ct : string) : bool :=
  String.eqb
    (match Js.split_at_first ";" ct with
     | Some (essence, _) => essence
     | None => ct
     end)
    "application/json".

(** A 2xx answer of type [application/jsonp] whose body happens to be a
    JSON object. *)
Definition demo_jsonp : Response :=
  {| status := 200; statusText := "OK";
     content_type := Some "application/jsonp"; text := "";
     json := Some (Js.VObj false [("access_token", Js.VStr "X")]) |}.

(** The installation behind another host, with a prefix and its own
    destination after login and logout. *)
Definition demo_config_hosted : TPluginParams :=
  {| profiles :=
       [ ("github", {| scope := ["user"]; provider := demo_provider "github.example" [] |}) ];
     login := None; authorized := None; logout := None;
     host := Some "example.com"; prefix := Some "/app";
     redirectTo := Some "/welcome/:name" |}.

(** What [jwt.verify] answered. *)
Definition verify_answer (o : Obs) : option (option Js.Obj) :=
  match o with
  | Observed e a =>
      match e in Effect A return A -> option (option Js.Obj) with
      | JwtVerify _ => fun t => Some t
      | _ => fun _ => None
      end a
  end.

(** A 2xx answer whose body is not JSON. *)
Definition demo_garbled : Response :=
  {| status := 200; statusText := "OK";
     content_type := Some "text/html"; text := "<html>"; json := None |}.


(** No [$] occurs in [s]: as a replacement text, [s] stands for itself. *)
Fixpoint dollar_free (s : string) : bool :=
  match s with
  | EmptyString => true
  | String c rest => negb (Ascii.eqb c "$") && dollar_free rest
  end.

(* ================================================================== *)
(** * Properties *)

Open Scope nat_scope.
Unset Implicit Arguments.

(** Taking a run apart along the program. *)
Ltac run_inv :=
  repeat match goal with
  | H : run (Ret _) _ _ |- _ => destruct H as [? ?]; subst
  | H : run (Throw _) _ _ |- _ => destruct H as [? ?]; subst
  | H : run (Call _ _) _ _ |- _ =>
      let a := fresh "a" in let tr := fresh "tr" in
      destruct H as (a & tr & ? & H); subst
  | H : run (bind _ _) _ _ |- _ => progress cbn [bind call] in H
  | H : run (if ?b then _ else _) _ _ |- _ => destruct b eqn:?
  | H : run (match ?x with _ => _ end) _ _ |- _ => destruct x eqn:?
  end.

(** The cases of [In o tr] for a trace written out. *)
Ltac in_cases H :=
  simpl in H;
  repeat match type of H with
  | _ \/ _ => destruct H as [<- | H]
  | False => destruct H
  end.

(** ** Objects: reading after writing *)

Section ObjectFacts.
Context {V : Type}.
Implicit Types (o : Js.Props V) (k : string) (v : V).

Lemma lookup_overwrite k k' v o :
  Js.lookup k o <> None ->
  Js.lookup k' (Js.overwrite k v o) = if String.eqb k' k then Some v else Js.lookup k' o.
Proof.
  induction o as [|[k0 v0] o IH]; simpl; intros Hk.
  - congruence.
  - destruct (String.eqb k k0) eqn:E.
    + apply String.eqb_eq in E. subst k0. simpl.
      destruct (String.eqb k' k); reflexivity.
    + simpl. destruct (String.eqb k' k0) eqn:E0.
      * apply String.eqb_eq in E0. subst k0.
        rewrite String.eqb_sym, E. reflexivity.
      * apply IH, Hk.
Qed.

Lemma lookup_app k o o' :
  Js.lookup k (o ++ o') =
  match Js.lookup k o with Some v => Some v | None => Js.lookup k o' end.
Proof.
  induction o as [|[k0 v0] o IH]; simpl.
  - reflexivity.
  - destruct (String.eqb k k0); [reflexivity | apply IH].
Qed.

Lemma lookup_insert_index i k k' v o :
  Js.lookup k o = None ->
  Js.lookup k' (Js.insert_index i k v o) = if String.eqb k' k then Some v else Js.lookup k' o.
Proof.
  induction o as [|[k0 v0] o IH]; simpl; intros Hk.
  - reflexivity.
  - destruct (String.eqb k k0) eqn:E; [discriminate|].
    destruct (Js.array_index k0) as [j|]; [destruct (i <? j)%N|]; simpl;
      try reflexivity.
    destruct (String.eqb k' k0) eqn:E0.
    + apply String.eqb_eq in E0. subst k0.
      rewrite String.eqb_sym, E. reflexivity.
    + apply IH, Hk.
Qed.

Lemma lookup_set k k' v o :
  Js.lookup k' (Js.set k v o) = if String.eqb k' k then Some v else Js.lookup k' o.
Proof.
  unfold Js.set. destruct (Js.lookup k o) eqn:E.
  - apply lookup_overwrite. congruence.
  - unfold Js.define. destruct (Js.array_index k).
    + apply lookup_insert_index, E.
    + rewrite lookup_app. simpl.
      destruct (String.eqb k' k) eqn:E'.
      * apply String.eqb_eq in E'. subst k'. rewrite E. reflexivity.
      * destruct (Js.lookup k' o); reflexivity.
Qed.

(** After [Object.assign]-style copying, a key reads as the last entry
    [source] has for it, and as before when [source] has none. *)
Lemma lookup_assign k (target source : Js.Props V) :
  Js.lookup k (Js.assign target source) =
  match Js.lookup k (rev source) with
  | Some v => Some v
  | None => Js.lookup k target
  end.
Proof.
  unfold Js.assign. revert target.
  induction source as [|[k0 v0] source IH]; simpl; intros target.
  - reflexivity.
  - rewrite IH, lookup_app, lookup_set. simpl.
    destruct (Js.lookup k (rev source)); [reflexivity|].
    destruct (String.eqb k k0); reflexivity.
Qed.

Lemma lookup_none_not_in k o :
  Js.lookup k o = None <-> ~ In k (map fst o).
Proof.
  induction o as [|[k0 v0] o IH]; simpl.
  - tauto.
  - destruct (String.eqb k k0) eqn:E.
    + apply String.eqb_eq in E. subst. split; [discriminate | tauto].
    + apply String.eqb_neq in E. rewrite IH. split; [intros H [?|?] | ]; intuition congruence.
Qed.

(** On an object, whose keys are pairwise distinct, the last entry for a
    key is the only one. *)
Lemma lookup_rev k o :
  NoDup (map fst o) -> Js.lookup k (rev o) = Js.lookup k o.
Proof.
  induction o as [|[k0 v0] o IH]; simpl; intros Hnd.
  - reflexivity.
  - inversion Hnd as [|? ? Hnotin Hnd']; subst.
    rewrite lookup_app, IH by assumption. simpl.
    destruct (String.eqb k k0) eqn:E.
    + apply String.eqb_eq in E. subst k0.
      apply lookup_none_not_in in Hnotin. rewrite Hnotin. reflexivity.
    + destruct (Js.lookup k o); reflexivity.
Qed.

(** [{ ...a, ...b }] reads [b] first. *)
Lemma lookup_spread2 k (a b : Js.Props V) :
  NoDup (map fst a) -> NoDup (map fst b) ->
  Js.lookup k (Js.spread2 a b) =
  match Js.lookup k b with
  | Some v => Some v
  | None => Js.lookup k a
  end.
Proof.
  intros Ha Hb. unfold Js.spread2.
  rewrite !lookup_assign, !lookup_rev by assumption.
  destruct (Js.lookup k b); [reflexivity|].
  destruct (Js.lookup k a); reflexivity.
Qed.

End ObjectFacts.

Lemma get_set (k k' : string) (v : Js.Value) (o : Js.Obj) :
  Js.get k' (Js.set k v o) = if String.eqb k' k then v else Js.get k' o.
Proof.
  unfold Js.get. rewrite lookup_set. destruct (String.eqb k' k); reflexivity.
Qed.

(** ** Runs *)

(** Against any environment a program runs to its end: [exec] is total and
    what it computes is a run. *)
Lemma exec_run {R : Type} (p : Prog R) (env : Environment) (n : nat) :
  run p (fst (exec env n p)) (snd (exec env n p)).
Proof.
  revert n. induction p as [r|e|A e k IH]; intros n; simpl.
  - split; reflexivity.
  - split; reflexivity.
  - specialize (IH (env A n e) (S n)).
    destruct (exec env (S n) (k (env A n e))) as [tr out]. simpl in *.
    exists (env A n e), tr. split; [reflexivity | exact IH].
Qed.

(** A run of [p] followed by [f] is a run of [p] that throws, or one that
    returns followed by a run of [f]. *)
Lemma run_bind {A B : Type} (p : Prog A) (f : A -> Prog B) tr out :
  run (bind p f) tr out <->
  (exists e, run p tr (Thrown e) /\ out = Thrown e) \/
  (exists a tr1 tr2, run p tr1 (Returned a) /\ run (f a) tr2 out /\ tr = tr1 ++ tr2).
Proof.
  revert tr. induction p as [r|e|X e k IH]; intros tr; simpl.
  - split.
    + intros H. right. exists r, [], tr. repeat split; assumption.
    + intros [(e & [_ He] & _) | (a & tr1 & tr2 & [-> Ha] & H & ->)].
      * discriminate.
      * injection Ha as <-. exact H.
  - split.
    + intros [-> ->]. left. exists e. repeat split.
    + intros [(e' & [-> He] & ->) | (a & tr1 & tr2 & [_ Ha] & _)].
      * injection He as <-. split; reflexivity.
      * discriminate.
  - split.
    + intros (a & tr' & -> & H). apply IH in H.
      destruct H as [(e' & H & ->) | (b & tr1 & tr2 & H1 & H2 & ->)].
      * left. exists e'. split; [|reflexivity]. exists a, tr'. split; [reflexivity | exact H].
      * right. exists b, (Observed e a :: tr1), tr2. repeat split; try assumption.
        exists a, tr1. split; [reflexivity | exact H1].
    + intros [(e' & (a & tr' & -> & H) & ->) | (b & tr1 & tr2 & (a & tr' & -> & H1) & H2 & ->)].
      * exists a, tr'. split; [reflexivity|]. apply IH. left. exists e'. split; [exact H | reflexivity].
      * exists a, (tr' ++ tr2). split; [reflexivity|]. apply IH. right.
        exists b, tr', tr2. repeat split; assumption.
Qed.

Lemma after_successful_check_cons (k : Kind) (c : Obs) (tr : Trace) :
  state_check_answer c = Some true -> kind_of c <> k ->
  after_successful_check k (c :: tr).
Proof.
  intros Hc Hk pre o post Hsplit Ho.
  destruct pre as [|y pre]; simpl in Hsplit; injection Hsplit as -> ->.
  - contradiction.
  - exists y. split; [left; reflexivity | exact Hc].
Qed.

(* ================================================================== *)
(** ** The callback *)

(** C1.  On a callback for a registered profile the first call is
    [state.check(request, name, state)].  When it answers [false] the
    handler throws [Error('State mismatch')] having made no other call, so
    no token request is sent; and in every run each [fetch] comes after a
    [state.check] that answered [true]. *)
Theorem state_mismatch_stops_callback
    (cfg : TPluginParams) (req : Context) (p : TOAuth2Profile)
    (tr : Trace) (out : Outcome HandlerResult) :
  Js.lookup (name req) (profiles cfg) = Some p ->
  run (authorized_handler cfg req) tr out ->
  exists (checked : bool) (rest : Trace),
    tr = Observed (StateCheck (request req) (name req) (callbackState req)) checked :: rest
    /\ (checked = false ->
        rest = [] /\ out = Thrown (Error "State mismatch") /\ calls KFetch tr = 0)
    /\ after_successful_check KFetch tr.
Proof.
  intros Hreg Hrun.
  unfold authorized_handler, resolveProvider, globalProfiles, Js.has_property, Js.hasOwn in Hrun.
  rewrite Hreg in Hrun. cbn [orb negb bind call run] in Hrun.
  destruct Hrun as (checked & rest & -> & Hrun).
  exists checked, rest. split; [reflexivity|].
  destruct checked; cbn [negb bind run] in Hrun.
  - split; [discriminate|].
    apply after_successful_check_cons; [reflexivity | discriminate].
  - destruct Hrun as [-> ->]. split.
    + intros _. repeat split.
    + intros pre o post Hsplit Ho.
      destruct pre as [|y [|z pre]]; simpl in Hsplit; try discriminate.
      injection Hsplit as <-. discriminate.
Qed.

Lemma state_mismatch_stops_callback_witness :
  run (authorized_handler (demo_config []) (demo_context "github"))
      [Observed (StateCheck demo_request "github" (Some "xyz")) false]
      (Thrown (Error "State mismatch"))
  /\ after_successful_check KFetch
       [Observed (StateCheck demo_request "github" (Some "xyz")) false].
Proof.
  assert (Hrun : run (authorized_handler (demo_config []) (demo_context "github"))
                   [Observed (StateCheck demo_request "github" (Some "xyz")) false]
                   (Thrown (Error "State mismatch"))).
  { cbn. exists false, []. repeat split. }
  split; [exact Hrun|].
  destruct (state_mismatch_stops_callback (demo_config []) (demo_context "github")
              {| scope := ["user"]; provider := demo_provider "github.example" [] |}
              _ _ eq_refl Hrun)
    as (checked & rest & _ & _ & Hafter).
  exact Hafter.
Defined.

Lemma receive_token_fetches_get cfg req response tr out o r resp :
  run (receive_token cfg req response) tr out ->
  In o tr -> fetch_exchange o = Some (r, resp) -> method r = GET.
Proof.
  intros Hrun Hin Hex. unfold receive_token, establish_session in Hrun.
  run_inv; simpl in Hin; 
  repeat match goal with
  | H : _ \/ _ |- _ => destruct H as [<- | H]
  | H : False |- _ => destruct H
  end; simpl in Hex; try discriminate; injection Hex as <- <-; reflexivity.
Qed.

(** The callback for a registered profile, up to the token response. *)
Lemma callback_runs cfg req p tr out :
  Js.lookup (name req) (profiles cfg) = Some p ->
  run (authorized_handler cfg req) tr out ->
  let check := StateCheck (request req) (name req) (callbackState req) in
  let decode :=
    DecodeURIComponent (match code req with Some c => c | None => "undefined" end) in
  (tr = [Observed check false] /\ out = Thrown (Error "State mismatch"))
  \/ (tr = [Observed check true; Observed decode None] /\ out = Thrown URIError)
  \/ (exists code credentials response rest,
        tr = Observed check true
               :: Observed decode (Some code)
               :: Observed (Btoa (clientId (provider p) ++ ":" ++ clientSecret (provider p))) credentials
               :: Observed (Fetch (token_request cfg (provider p) (name req) code credentials)) response
               :: rest
        /\ run (receive_token cfg req response) rest out).
Proof.
  intros Hreg Hrun check decode. subst check decode.
  unfold authorized_handler, resolveProvider, globalProfiles, Js.has_property, Js.hasOwn in Hrun.
  rewrite Hreg in Hrun. cbn [orb negb bind call run] in Hrun.
  destruct Hrun as ([|] & rest & -> & Hrun); cbn [negb bind call run] in Hrun.
  - destruct Hrun as ([code|] & rest' & -> & Hrun); cbn [bind call run] in Hrun.
    + destruct Hrun as (credentials & rest1 & -> & response & rest2 & -> & Hrun).
      right. right. exists code, credentials, response, rest2. split; [reflexivity|].
      exact Hrun.
    + destruct Hrun as [-> ->]. right. left. split; reflexivity.
  - destruct Hrun as [-> ->]. left. split; reflexivity.
Qed.

(** C5 (amended).  On a callback for a registered profile, when the token
    request (the one [POST]) is answered with a status outside 200-299 or
    with a [Content-Type] that is absent or does not start with
    [application/json], the handler throws the error whose message is the
    upstream status, status text and body text, and the run holds no
    [storage.set], no [jwt.sign] and no [setCookie]. *)
Theorem failed_exchange_is_fatal
    (cfg : TPluginParams) (req : Context) (p : TOAuth2Profile)
    (tr : Trace) (out : Outcome HandlerResult)
    (o : Obs) (r : FetchRequest) (response : Response) :
  Js.lookup (name req) (profiles cfg) = Some p ->
  run (authorized_handler cfg req) tr out ->
  In o tr -> fetch_exchange o = Some (r, response) -> method r = POST ->
  ok response = false \/ json_content_type response = false ->
  fetch_url r = url (token (provider p))
  /\ out = Thrown (Error (string_of_N (status response) ++ ": "
                           ++ statusText response ++ ": " ++ text response))
  /\ calls KStorageSet tr = 0
  /\ calls KJwtSign tr = 0
  /\ calls KSetCookie tr = 0.
Proof.
  intros Hreg Hrun Hin Hex Hpost Hbad.
  destruct (callback_runs _ _ _ _ _ Hreg Hrun)
    as [[-> ->] | [[-> ->] | (code & credentials & resp & rest & -> & Hrest)]].
  - in_cases Hin; discriminate.
  - in_cases Hin; discriminate.
  - simpl in Hin. destruct Hin as [<- | [<- | [<- | [<- | Hin]]]]; try discriminate.
    + simpl in Hex. injection Hex as <- <-.
      unfold receive_token in Hrest.
      assert (Hcond : negb (ok resp) || negb (json_content_type resp) = true).
      { destruct Hbad as [-> | ->]; [reflexivity | apply orb_true_r]. }
      rewrite Hcond in Hrest. destruct Hrest as [-> ->].
      repeat split.
    + rewrite (receive_token_fetches_get _ _ _ _ _ _ _ _ Hrest Hin Hex) in Hpost. discriminate.
Qed.

Lemma failed_exchange_is_fatal_witness :
  let world := demo_world true None (fun _ => demo_garbled) 0 in
  let result := exec world 0 (authorized_handler (demo_config []) (demo_context "github")) in
  ok demo_garbled = true
  /\ json_content_type demo_garbled = false
  /\ snd result = Thrown (Error "200: OK: <html>")
  /\ calls KStorageSet (fst result) = 0
  /\ calls KJwtSign (fst result) = 0.
Proof.
  intros world result.
  pose proof (failed_exchange_is_fatal (demo_config []) (demo_context "github")
                {| scope := ["user"]; provider := demo_provider "github.example" [] |}
                (fst result) (snd result)
                (Observed
                   (Fetch (token_request (demo_config [])
                             (demo_provider "github.example" []) "github" "abc" "aWQ6c2VjcmV0"))
                   demo_garbled)
                _ demo_garbled
                eq_refl
                (exec_run _ world 0)
                (or_intror (or_intror (or_intror (or_introl eq_refl))))
                eq_refl eq_refl (or_intror eq_refl))
    as (_ & Hout & Hset & Hsign & _).
  split; [reflexivity|]. split; [reflexivity|].
  split; [exact Hout|]. split; [exact Hset | exact Hsign].
Defined.

(** C5, as stated, fails: [application/jsonp] is not JSON, yet it starts
    with [application/json]; a 2xx answer of that type with a body that
    reads as a JSON object is taken for the token, stored, signed and
    answered with the redirect. *)
Lemma failed_exchange_is_fatal_counterexample :
  let world := demo_world true None (fun _ => demo_jsonp) 1700000000123 in
  let result := exec world 0 (authorized_handler (demo_config []) (demo_context "github")) in
  content_type demo_jsonp = Some "application/jsonp"
  /\ json_media_type "application/jsonp" = false
  /\ json_content_type demo_jsonp = true
  /\ snd result = Returned (HMessage "Found redirect")
  /\ stored_tokens (fst result) =
       [ ("github",
          Js.VObj false
            [ ("access_token", Js.VStr "X"); ("expires_in", Js.VNum 3600);
              ("created_at", Js.VNum (1700000000123 # 1000)) ]) ]
  /\ calls KJwtSign (fst result) = 1
  /\ calls KSetCookie (fst result) = 1.
Proof. cbv zeta. repeat split. Qed.

(** What the callback makes of the fields of the token response: a missing
    or [null] [expires_in] becomes 3600, any other value is kept, and
    [created_at] is the clock reading over 1000. *)
Lemma stamp_fields (fields : Js.Obj) (now : Z) :
  Js.get "expires_in" (stamp fields now) =
    match Js.lookup "expires_in" fields with
    | None | Some Js.VUndefined | Some Js.VNull => Js.VNum 3600
    | Some v => v
    end
  /\ Js.get "created_at" (stamp fields now) = Js.VNum (now # 1000)
  /\ forall k, k <> "expires_in" -> k <> "created_at" ->
       Js.get k (stamp fields now) = Js.get k fields.
Proof.
  unfold stamp. repeat split.
  - rewrite !get_set. simpl. unfold Js.get, Js.nullish_or.
    destruct (Js.lookup "expires_in" fields) as [[]|]; reflexivity.
  - rewrite get_set. reflexivity.
  - intros k He Hc. rewrite !get_set.
    apply String.eqb_neq in He, Hc. rewrite He, Hc. reflexivity.
Qed.

Lemma establish_session_runs cfg req stored age tr out :
  run (establish_session cfg req stored age) tr out ->
  exists signed,
    tr = session_calls cfg req stored age signed
    /\ out = Returned (HMessage "Found redirect").
Proof.
  intros Hrun. unfold establish_session in Hrun. run_inv.
  repeat match goal with u : unit |- _ => destruct u end.
  eexists. split; reflexivity.
Qed.

(** C4 (amended).  When the token request of a callback is answered with
    a 2xx JSON response whose body is an object, the handler reads the
    clock once and builds the token: the fields of the response, with
    [expires_in] 3600 when the response has none or has [null] there and
    the provider's value otherwise, and with [created_at] the clock
    reading in seconds.  For every profile but [twitch] this token is what
    is stored and signed, and the cookie's [maxAge] is its [expires_in].
    For [twitch] the validation request follows; when it succeeds, what is
    stored and signed is the token overlaid with the fields of the
    validation response. *)
Theorem callback_token_defaults
    (cfg : TPluginParams) (req : Context) (p : TOAuth2Profile)
    (tr : Trace) (out : Outcome HandlerResult)
    (o : Obs) (r : FetchRequest) (response : Response)
    (is_array : bool) (fields : Js.Obj) :
  Js.lookup (name req) (profiles cfg) = Some p ->
  run (authorized_handler cfg req) tr out ->
  In o tr -> fetch_exchange o = Some (r, response) -> method r = POST ->
  ok response = true -> json_content_type response = true ->
  json response = Some (Js.VObj is_array fields) ->
  exists (now : Z) (before after : Trace),
    tr = before ++ Observed DateNow now :: after
    /\ calls KDateNow before = 0
    /\ let token := stamp fields now in
       Js.get "expires_in" token =
         match Js.lookup "expires_in" fields with
         | None | Some Js.VUndefined | Some Js.VNull => Js.VNum 3600
         | Some v => v
         end
       /\ Js.get "created_at" token = Js.VNum (now # 1000)
       /\ (name req <> "twitch" ->
           exists signed,
             after = session_calls cfg req (Js.VObj is_array token)
                       (Js.get "expires_in" token) signed
             /\ out = Returned (HMessage "Found redirect"))
       /\ (name req = "twitch" ->
           exists validation rest,
             after = Observed (Fetch (twitch_validate (Js.get "access_token" token))) validation
                       :: rest
             /\ (ok validation = false ->
                 rest = [] /\ out = Thrown (upstream_error validation))
             /\ (forall certificate,
                   ok validation = true -> json validation = Some certificate ->
                   exists signed,
                     rest = session_calls cfg req
                              (Js.VObj false
                                 (Js.spread2 token (Js.own_enumerable certificate)))
                              (Js.get "expires_in" token) signed
                     /\ out = Returned (HMessage "Found redirect"))).
Proof.
  intros Hreg Hrun Hin Hex Hpost Hok Hct Hjson.
  destruct (callback_runs _ _ _ _ _ Hreg Hrun)
    as [[-> ->] | [[-> ->] | (decoded & credentials & resp & rest & -> & Hrest)]].
  - in_cases Hin; discriminate.
  - in_cases Hin; discriminate.
  - simpl in Hin. destruct Hin as [<- | [<- | [<- | [<- | Hin]]]]; try discriminate.
    2: { rewrite (receive_token_fetches_get _ _ _ _ _ _ _ _ Hrest Hin Hex) in Hpost.
         discriminate. }
    simpl in Hex. injection Hex as <- <-.
    unfold receive_token in Hrest.
    rewrite Hok, Hct, Hjson in Hrest. cbn [negb orb bind call run] in Hrest.
    destruct Hrest as (now & after & -> & Hrest).
    exists now.
    exists [ Observed (StateCheck (request req) (name req) (callbackState req)) true;
             Observed (DecodeURIComponent
                         (match code req with Some c => c | None => "undefined" end))
                      (Some decoded);
             Observed (Btoa (clientId (provider p) ++ ":" ++ clientSecret (provider p)))
                      credentials;
             Observed (Fetch (token_request cfg (provider p) (name req) decoded credentials))
                      resp ].
    exists after. split; [reflexivity|]. split; [reflexivity|].
    destruct (stamp_fields fields now) as (He & Hc & _).
    cbv zeta. split; [exact He|]. split; [exact Hc|].
    destruct (String.eqb (name req) "twitch") eqn:Htw.
    + apply String.eqb_eq in Htw. split; [intros Hne; contradiction|]. intros _.
      cbn [bind call run] in Hrest.
      destruct Hrest as (validation & rest & -> & Hrest).
      exists validation, rest. split; [reflexivity|].
      destruct (ok validation).
      * split; [discriminate|]. intros certificate _ Hcert.
        rewrite Hcert in Hrest. apply establish_session_runs in Hrest. exact Hrest.
      * destruct Hrest as [-> ->]. split; [intros _; split; reflexivity|].
        intros certificate Hf. discriminate.
    + apply String.eqb_neq in Htw. split; [|intros Heq; contradiction]. intros _.
      apply establish_session_runs in Hrest. exact Hrest.
Qed.

Lemma callback_token_defaults_witness :
  let world :=
    demo_world true None
      (demo_provider_answers (Js.VObj false demo_token) Js.VNull) 1700000000123 in
  let result := exec world 0 (authorized_handler (demo_config []) (demo_context "github")) in
  Js.lookup "expires_in" demo_token = None
  /\ (exists now, Js.get "expires_in" (stamp demo_token now) = Js.VNum 3600)
  /\ snd result = Returned (HMessage "Found redirect")
  /\ stored_tokens (fst result) =
       [ ("github",
          Js.VObj false
            [ ("access_token", Js.VStr "X"); ("token_type", Js.VStr "bearer");
              ("expires_in", Js.VNum 3600);
              ("created_at", Js.VNum (1700000000123 # 1000)) ]) ].
Proof.
  intros world result.
  destruct (callback_token_defaults (demo_config []) (demo_context "github")
              {| scope := ["user"]; provider := demo_provider "github.example" [] |}
              (fst result) (snd result)
              (Observed
                 (Fetch (token_request (demo_config [])
                           (demo_provider "github.example" []) "github" "abc" "aWQ6c2VjcmV0"))
                 (json_response (Js.VObj false demo_token)))
              _ (json_response (Js.VObj false demo_token)) false demo_token
              eq_refl
              (exec_run _ world 0)
              (or_intror (or_intror (or_intror (or_introl eq_refl))))
              eq_refl eq_refl eq_refl eq_refl eq_refl)
    as (now & before & after & _ & _ & He & _ & Hother & _).
  split; [reflexivity|]. split; [exists now; exact He|].
  split; [|reflexivity].
  destruct Hother as (signed & _ & Hout); [discriminate | exact Hout].
Defined.

(** C4, as stated, fails in two places.  For [twitch] the stored token is
    the overlay: a token response without [expires_in] is stored with the
    5000 of the validation response, not with 3600.  And a response that
    has [expires_in], as [null], is stored with 3600. *)
Lemma callback_token_defaults_counterexample :
  let twitch_world :=
    demo_world true None
      (demo_provider_answers (Js.VObj false demo_token) (Js.VObj false demo_certificate))
      1700000000123 in
  let null_world :=
    demo_world true None
      (demo_provider_answers
         (Js.VObj false [("access_token", Js.VStr "X"); ("expires_in", Js.VNull)])
         Js.VNull)
      1700000000123 in
  Js.lookup "expires_in" demo_token = None
  /\ stored_tokens
       (fst (exec twitch_world 0
               (authorized_handler (demo_config []) (demo_context "twitch")))) =
       [ ("twitch",
          Js.VObj false
            [ ("access_token", Js.VStr "X"); ("token_type", Js.VStr "bearer");
              ("expires_in", Js.VNum 5000);
              ("created_at", Js.VNum (1700000000123 # 1000));
              ("login", Js.VStr "user") ]) ]
  /\ stored_tokens
       (fst (exec null_world 0
               (authorized_handler (demo_config []) (demo_context "github")))) =
       [ ("github",
          Js.VObj false
            [ ("access_token", Js.VStr "X"); ("expires_in", Js.VNum 3600);
              ("created_at", Js.VNum (1700000000123 # 1000)) ]) ].
Proof.
  cbv zeta. repeat split.
Qed.

(* ================================================================== *)
(** ** Login *)

Lemma authParams_keys cfg p name state :
  map fst (authParams cfg p name state) =
  ["client_id"; "redirect_uri"; "response_type"; "response_mode"; "state"].
Proof. reflexivity. Qed.

Lemma authParams_NoDup cfg p name state :
  NoDup (map fst (authParams cfg p name state)).
Proof.
  rewrite authParams_keys.
  repeat constructor; simpl; intuition discriminate.
Qed.

(** C2 (amended).  The login handler for a registered profile asks for a
    state token and redirects to the URL that [buildUrl] makes of the
    provider's authorization endpoint, the merged parameters and the
    scope.  The merged parameters read, key by key, the provider's extra
    parameter when the provider has one under that key, and the protocol
    parameter ([client_id], [redirect_uri], [response_type],
    [response_mode], [state]) only when it has none: on a conflict the
    provider's value is the one in the URL. *)
Theorem login_provider_params_win
    (cfg : TPluginParams) (req : Context) (p : TOAuth2Profile)
    (tr : Trace) (out : Outcome HandlerResult) :
  Js.lookup (name req) (profiles cfg) = Some p ->
  NoDup (map fst (params (auth (provider p)))) ->
  run (login_handler cfg req) tr out ->
  exists state : string,
    let protocol_params := authParams cfg (provider p) (name req) state in
    let merged := Js.spread2 protocol_params (params (auth (provider p))) in
    let location := buildUrl (url (auth (provider p))) merged (scope p) in
    tr = [Observed (StateGenerate (request req) (name req)) state]
    /\ out = Returned (HRedirect location)
    /\ searchParams location = merged
    /\ forall k,
         Js.lookup k merged =
         match Js.lookup k (params (auth (provider p))) with
         | Some v => Some v
         | None => Js.lookup k protocol_params
         end.
Proof.
  intros Hreg Hnd Hrun.
  unfold login_handler, resolveProvider, globalProfiles, Js.has_property, Js.hasOwn in Hrun.
  rewrite Hreg in Hrun. cbn [orb negb bind call run] in Hrun.
  destruct Hrun as (state & rest & -> & -> & ->).
  exists state. cbv zeta. split; [reflexivity|]. split; [reflexivity|].
  split; [reflexivity|].
  intros k. apply lookup_spread2; [apply authParams_NoDup | exact Hnd].
Qed.

Lemma login_provider_params_win_witness :
  let cfg := demo_config [("prompt", Js.VStr "consent"); ("state", Js.VStr "fixed")] in
  let tr := [Observed (StateGenerate demo_request "github") "s3cr3t"] in
  exists location,
    run (login_handler cfg (demo_context "github")) tr (Returned (HRedirect location))
    /\ Js.lookup "prompt" (searchParams location) = Some (Js.VStr "consent")
    /\ Js.lookup "state" (searchParams location) = Some (Js.VStr "fixed")
    /\ Js.lookup "response_type" (searchParams location) = Some (Js.VStr "code").
Proof.
  intros cfg tr.
  assert (Hnd : NoDup (map fst [("prompt", Js.VStr "consent"); ("state", Js.VStr "fixed")])).
  { repeat constructor; simpl; intuition discriminate. }
  assert (Hrun : run (login_handler cfg (demo_context "github")) tr
                   (snd (exec (demo_world true None (fun _ => demo_bad_gateway) 0) 0
                           (login_handler cfg (demo_context "github"))))).
  { exact (exec_run (login_handler cfg (demo_context "github"))
             (demo_world true None (fun _ => demo_bad_gateway) 0) 0). }
  destruct (login_provider_params_win cfg (demo_context "github")
              {| scope := ["user"];
                 provider := demo_provider "github.example"
                               [("prompt", Js.VStr "consent"); ("state", Js.VStr "fixed")] |}
              tr _ eq_refl Hnd Hrun)
    as (state & Htr & Hout & Hparams & Hquery).
  eexists. rewrite Hout in Hrun. split; [exact Hrun|].
  rewrite Hparams, !Hquery. repeat split.
Defined.

(** C2, as stated, fails: a provider whose extra parameters name [state]
    has its own value in the URL, not the state token that was
    generated. *)
Lemma login_provider_params_win_counterexample :
  let cfg := demo_config [("state", Js.VStr "fixed")] in
  exec (demo_world true None (fun _ => demo_bad_gateway) 0) 0
    (login_handler cfg (demo_context "github")) =
  ( [Observed (StateGenerate demo_request "github") "s3cr3t"],
    Returned (HRedirect
      {| endpoint := "https://github.example/authorize";
         searchParams :=
           [ ("client_id", Js.VStr "id");
             ("redirect_uri", Js.VStr "http://localhost:3000/login/github/authorized");
             ("response_type", Js.VStr "code");
             ("response_mode", Js.VStr "query");
             ("state", Js.VStr "fixed") ];
         scope_param := ["user"] |}) ).
Proof. reflexivity. Qed.

(* ================================================================== *)
(** ** Logout *)

(** C6.  For a registered profile the logout handler reads the clock,
    sets the [authorize] cookie to [null] with [expires] that very
    reading (so not later than any moment after the call) and [maxAge] 0,
    and sets the redirect to the configured destination: the external
    URI built from the [redirectTo] option, or from [/user/:name/profile]
    when the option is absent or empty.  It does so whatever the request
    carries, and none of its calls reaches the token storage. *)
Theorem logout_clears_cookie_only
    (cfg : TPluginParams) (req : Context) (p : TOAuth2Profile)
    (tr : Trace) (out : Outcome HandlerResult) :
  Js.lookup (name req) (profiles cfg) = Some p ->
  run (logout_handler cfg req) tr out ->
  exists (now : Z) (destination : string),
    destination =
      match redirectTo cfg with
      | Some configured =>
          if String.eqb configured "" then "/user/:name/profile" else configured
      | None => "/user/:name/profile"
      end
    /\ tr = [ Observed DateNow now;
              Observed (SetCookie "authorize" Js.VNull
                          (Some {| expires := Some now; maxAge := Some (Js.VNum 0) |})) tt;
              Observed (SetStatus "OK") tt;
              Observed (SetRedirect (buildUri cfg destination (name req) true)) tt ]
    /\ out = Returned (HMessage "Logged out!")
    /\ storage_calls tr = 0.
Proof.
  intros Hreg Hrun.
  unfold logout_handler, resolveProvider, globalProfiles, Js.has_property, Js.hasOwn in Hrun.
  rewrite Hreg in Hrun. cbn [orb negb] in Hrun. run_inv.
  repeat match goal with u : unit |- _ => destruct u end.
  eexists. eexists. split; [reflexivity|]. repeat split.
Qed.

Lemma logout_clears_cookie_only_witness :
  let world := demo_world true None (fun _ => demo_bad_gateway) 1700000000123 in
  let hosted := exec world 0 (logout_handler demo_config_hosted (demo_context "github")) in
  let plain := exec world 0 (logout_handler (demo_config []) (demo_context "github")) in
  snd hosted = Returned (HMessage "Logged out!")
  /\ storage_calls (fst hosted) = 0
  /\ map cookie_set (fst hosted) =
       [ None;
         Some ("authorize", Js.VNull,
               Some {| expires := Some 1700000000123%Z; maxAge := Some (Js.VNum 0) |});
         None; None ]
  /\ map redirect_set (fst hosted) =
       [ None; None; None; Some "https://example.com/app/welcome/github" ]
  /\ map redirect_set (fst plain) =
       [ None; None; None; Some "http://localhost:3000/user/github/profile" ].
Proof.
  intros world hosted plain.
  destruct (logout_clears_cookie_only demo_config_hosted (demo_context "github")
              {| scope := ["user"]; provider := demo_provider "github.example" [] |}
              (fst hosted) (snd hosted) eq_refl (exec_run _ world 0))
    as (now & destination & Hdest & Htr & Hout & Hstorage).
  destruct (logout_clears_cookie_only (demo_config []) (demo_context "github")
              {| scope := ["user"]; provider := demo_provider "github.example" [] |}
              (fst plain) (snd plain) eq_refl (exec_run _ world 0))
    as (now' & destination' & Hdest' & Htr' & _).
  split; [exact Hout|]. split; [exact Hstorage|]. split; [reflexivity|].
  split.
  - rewrite Htr, Hdest. reflexivity.
  - rewrite Htr', Hdest'. reflexivity.
Defined.

(* ================================================================== *)
(** ** Unknown profile names *)

(** A name that [profiles] neither owns nor inherits gets the 404
    response from each of the three handlers, which then are the program
    that returns it: no call is made. *)
Lemma unknown_profile_is_404 (cfg : TPluginParams) (req : Context) :
  Js.has_property (name req) (profiles cfg) = false ->
  login_handler cfg req = Ret (HResponse 404 "Not Found" "")
  /\ authorized_handler cfg req = Ret (HResponse 404 "Not Found" "")
  /\ logout_handler cfg req = Ret (HResponse 404 "Not Found" "").
Proof.
  intros Hin.
  unfold login_handler, authorized_handler, logout_handler, resolveProvider, globalProfiles.
  rewrite Hin. repeat split.
Qed.

Lemma unknown_profile_is_404_witness :
  Js.has_property "gitlab" (profiles (demo_config [])) = false
  /\ logout_handler (demo_config []) (demo_context "gitlab")
     = Ret (HResponse 404 "Not Found" "").
Proof.
  split; [reflexivity|].
  exact (proj2 (proj2 (unknown_profile_is_404 (demo_config []) (demo_context "gitlab") eq_refl))).
Defined.

(** C7 at a name that is no key of [profiles] but that every object
    inherits: [GET /logout/constructor] clears the cookie and answers
    "Logged out!", [GET /login/constructor/authorized] consults the state
    collaborator, and [GET /login/constructor] throws; none answers 404. *)
Theorem inherited_name_is_not_404 :
  let cfg := demo_config [] in
  let world := demo_world true None (fun _ => demo_bad_gateway) 1700000000123 in
  Js.lookup "constructor" (profiles cfg) = None
  /\ exec world 0 (logout_handler cfg (demo_context "constructor")) =
     ( [ Observed DateNow 1700000000123%Z;
         Observed (SetCookie "authorize" Js.VNull
                     (Some {| expires := Some 1700000000123%Z;
                              maxAge := Some (Js.VNum 0) |})) tt;
         Observed (SetStatus "OK") tt;
         Observed (SetRedirect "http://localhost:3000/user/constructor/profile") tt ],
       Returned (HMessage "Logged out!") )
  /\ exec world 0 (authorized_handler cfg (demo_context "constructor")) =
     ( [ Observed (StateCheck demo_request "constructor" (Some "xyz")) true ],
       Thrown TypeError )
  /\ exec world 0 (login_handler cfg (demo_context "constructor")) =
     ( [], Thrown TypeError ).
Proof. cbv zeta. repeat split. Qed.

(* ================================================================== *)
(** ** The capabilities *)

(** C8.  [tokenHeaders(profile, id)] makes one call, [storage.get], and
    returns [{ Authorization: `Bearer ${token?.access_token}` }] for
    whatever the storage answers: it has no path that throws.  When the
    storage has no token the header reads ["Bearer undefined"]. *)
Theorem tokenHeaders_always_bearer
    (ctx : Context) (profile id : string)
    (tr : Trace) (out : Outcome Derive.BearerHeaders) :
  run (Derive.tokenHeaders ctx profile id) tr out ->
  exists (stored : option Js.Obj) (h : Derive.BearerHeaders),
    tr = [Observed (StorageGet (request ctx) profile id) stored]
    /\ out = Returned h
    /\ Derive.Authorization h =
         Js.Interp "Bearer "
           (match stored with
            | Some token => Js.get "access_token" token
            | None => Js.VUndefined
            end)
    /\ forall Number_toString : Q -> string,
         (exists t, render Number_toString (Derive.Authorization h) = ("Bearer " ++ t)%string)
         /\ (stored = None ->
             render Number_toString (Derive.Authorization h) = "Bearer undefined")
         /\ (forall token s,
               stored = Some token -> Js.lookup "access_token" token = Some (Js.VStr s) ->
               render Number_toString (Derive.Authorization h) = ("Bearer " ++ s)%string).
Proof.
  intros Hrun. unfold Derive.tokenHeaders in Hrun. run_inv.
  eexists. eexists. split; [reflexivity|]. split; [reflexivity|].
  split; [reflexivity|]. intros Number_toString. cbn [Derive.Authorization render].
  split; [eexists; reflexivity|]. split.
  - intros ->. reflexivity.
  - intros token s -> Hs. unfold Js.get. rewrite Hs. reflexivity.
Qed.

Lemma tokenHeaders_always_bearer_witness :
  let world := demo_world true None (fun _ => demo_bad_gateway) 0 in
  exists h,
    snd (exec world 0 (Derive.tokenHeaders (demo_context "github") "github" "42"))
    = Returned h
    /\ forall Number_toString,
         render Number_toString (Derive.Authorization h) = "Bearer undefined".
Proof.
  intros world.
  destruct (tokenHeaders_always_bearer (demo_context "github") "github" "42" _ _
              (exec_run _ world 0))
    as (stored & h & Htr & Hout & _ & Hrender).
  exists h. split; [exact Hout|]. intros Number_toString.
  destruct (Hrender Number_toString) as (_ & Hnone & _). apply Hnone.
  apply (f_equal (map storage_answer)) in Htr. simpl in Htr.
  injection Htr as Hstored. symmetry. exact Hstored.
Defined.

(** C9.  [authorized()] with no profile is the program that returns
    [true]: its only run makes no call. *)
Theorem authorized_without_profiles (env : BunEnv) (ctx : Context) :
  Derive.authorized env ctx [] = Ret true
  /\ forall tr out,
       run (Derive.authorized env ctx []) tr out -> tr = [] /\ out = Returned true.
Proof.
  split; [reflexivity|]. intros tr out Hrun. exact Hrun.
Qed.

Lemma isTokenValid_runs (token : Js.Obj) (tr : Trace) (out : Outcome bool) :
  run (isTokenValid token) tr out ->
  exists (now : Z) (valid : bool),
    tr = [Observed DateNow now] /\ out = Returned valid.
Proof.
  intros Hrun. unfold isTokenValid in Hrun. cbn [bind call run] in Hrun.
  destruct Hrun as (now & rest & -> & Hrun). exists now.
  destruct (Js.get "created_at" token), (Js.get "expires_in" token);
    destruct Hrun as [-> ->]; eexists; split; reflexivity.
Qed.

(** One turn of the loop of [authorized] for a profile other than
    [twitch]: the cookie is verified, and when it verifies the clock is
    read; the loop goes on only when the token is valid. *)
Lemma authorized_step (env : BunEnv) (ctx : Context)
    (profile : string) (rest : list string) (tr : Trace) (out : Outcome bool) :
  String.eqb profile "twitch" = false ->
  run (Derive.authorized env ctx (profile :: rest)) tr out ->
  (tr = [Observed (JwtVerify (cookie_authorize ctx)) None] /\ out = Returned false)
  \/ exists token now,
       (tr = [Observed (JwtVerify (cookie_authorize ctx)) (Some token);
              Observed DateNow now]
        /\ out = Returned false)
       \/ exists tr',
            tr = Observed (JwtVerify (cookie_authorize ctx)) (Some token)
                   :: Observed DateNow now :: tr'
            /\ run (Derive.authorized env ctx rest) tr' out.
Proof.
  intros Hp Hrun. cbn [Derive.authorized bind call run] in Hrun. rewrite Hp in Hrun.
  destruct Hrun as ([token|] & tr' & -> & Hrun).
  - right. exists token.
    apply run_bind in Hrun.
    destruct Hrun as [(e & Hv & _) | (valid & tr1 & tr2 & Hv & Hrun & ->)];
      apply isTokenValid_runs in Hv; destruct Hv as (now & b & -> & Hb);
      [discriminate|].
    exists now. destruct valid; cbn [negb] in Hrun.
    + right. exists tr2. split; [reflexivity | exact Hrun].
    + destruct Hrun as [-> ->]. left. split; reflexivity.
  - destruct Hrun as [-> ->]. left. split; reflexivity.
Qed.

(** The [twitch] turn of the loop: the validation request, and when it
    is refused the refresh request and what follows it. *)
Lemma twitch_check_runs (env : BunEnv) (ctx : Context) (token : Js.Obj)
    (tr : Trace) (out : Outcome bool) :
  run (Derive.twitch_check env ctx token) tr out ->
  exists validation,
    let validate :=
      Observed (Fetch (twitch_validate (Js.get "access_token" token))) validation in
    (ok validation = true /\ tr = [validate] /\ out = Returned true)
    \/ (ok validation = false
        /\ exists refreshed,
             let refresh :=
               Observed (Fetch (Derive.twitch_refresh env (Js.get "refresh_token" token)))
                        refreshed in
             (ok refreshed = false /\ tr = [validate; refresh] /\ out = Returned false)
             \/ (ok refreshed = true /\ json refreshed = None
                 /\ tr = [validate; refresh] /\ out = Thrown SyntaxError)
             \/ (ok refreshed = true
                 /\ exists newToken signed,
                      json refreshed = Some newToken
                      /\ tr = [ validate; refresh;
                                Observed (StorageSet (request ctx) "twitch" newToken) tt;
                                Observed (JwtSign newToken) signed;
                                Observed (SetCookie "authorize" (Js.VStr signed) None) tt ]
                      /\ out = Returned true)).
Proof.
  intros Hrun. unfold Derive.twitch_check in Hrun. cbn [bind call run] in Hrun.
  destruct Hrun as (validation & tr1 & -> & Hrun). exists validation. cbv zeta.
  destruct (ok validation).
  - destruct Hrun as [-> ->]. left. repeat split.
  - right. split; [reflexivity|]. cbn [bind call run] in Hrun.
    destruct Hrun as (refreshed & tr2 & -> & Hrun). exists refreshed.
    destruct (ok refreshed).
    + destruct (json refreshed) as [newToken|].
      * cbn [bind call run] in Hrun.
        destruct Hrun as ([] & tr3 & -> & signed & tr4 & -> & [] & tr5 & -> & -> & ->).
        right. right. split; [reflexivity|]. exists newToken, signed. repeat split.
      * destruct Hrun as [-> ->]. right. left. repeat split.
    + destruct Hrun as [-> ->]. left. repeat split.
Qed.

(** C10.  In a run of [authorized(...)] in which the refresh request (the
    one [POST]) is answered 2xx with JSON [newToken], the calls after it
    are exactly [storage.set(request, 'twitch', newToken)],
    [jwt.sign(newToken)] and [setCookie('authorize', signed)] with no
    options, and the result is [true]: what is stored and signed is the
    response as received, with nothing added or defaulted, and the cookie
    is set without [maxAge].  Nothing was stored, signed or set before. *)
Theorem refresh_stores_response_as_received
    (env : BunEnv) (ctx : Context) (profiles : list string)
    (tr : Trace) (out : Outcome bool)
    (o : Obs) (r : FetchRequest) (response : Response) (newToken : Js.Value) :
  run (Derive.authorized env ctx profiles) tr out ->
  In o tr -> fetch_exchange o = Some (r, response) -> method r = POST ->
  ok response = true -> json response = Some newToken ->
  exists (before : Trace) (signed : string),
    tr = before ++
         [ Observed (Fetch r) response;
           Observed (StorageSet (request ctx) "twitch" newToken) tt;
           Observed (JwtSign newToken) signed;
           Observed (SetCookie "authorize" (Js.VStr signed) None) tt ]
    /\ calls KStorageSet before = 0
    /\ calls KJwtSign before = 0
    /\ calls KSetCookie before = 0
    /\ out = Returned true.
Proof.
  revert tr. induction profiles as [|profile rest IH]; intros tr Hrun Hin Hex Hpost Hok Hjson.
  - destruct Hrun as [-> _]. destruct Hin.
  - destruct (String.eqb profile "twitch") eqn:Hp.
    + cbn [Derive.authorized bind call run] in Hrun. rewrite Hp in Hrun.
      destruct Hrun as ([token|] & tr' & -> & Hrun).
      2: { destruct Hrun as [-> ->]. in_cases Hin; discriminate. }
      apply twitch_check_runs in Hrun. cbv zeta in Hrun.
      destruct Hrun as (validation & [(_ & -> & ->) | (_ & refreshed & Hrun)]).
      { in_cases Hin; try discriminate.
        simpl in Hex. injection Hex as <- <-. discriminate. }
      destruct Hrun as [(Hno & -> & ->) | [(_ & Hnone & -> & ->) | (_ & t & signed & Ht & -> & ->)]];
        in_cases Hin; try discriminate;
        simpl in Hex; injection Hex as <- <-; try discriminate; try congruence.
      replace newToken with t by congruence.
      exists [ Observed (JwtVerify (cookie_authorize ctx)) (Some token);
               Observed (Fetch (twitch_validate (Js.get "access_token" token))) validation ].
      exists signed. repeat split.
    + destruct (authorized_step env ctx profile rest tr out Hp Hrun)
        as [[-> ->] | (token & now & [[-> ->] | (tr' & -> & Hrest)])].
      * in_cases Hin; discriminate.
      * in_cases Hin; discriminate.
      * simpl in Hin. destruct Hin as [<- | [<- | Hin]]; try discriminate.
        destruct (IH tr' Hrest Hin Hex Hpost Hok Hjson)
          as (before & signed & -> & Hs & Hg & Hc & ->).
        exists (Observed (JwtVerify (cookie_authorize ctx)) (Some token)
                  :: Observed DateNow now :: before), signed.
        repeat split; assumption.
Qed.

Lemma refresh_stores_response_as_received_witness :
  let world :=
    demo_world true (Some (demo_session 1700000000))
      (fun r => match method r with
                | GET => demo_unauthorized
                | POST => json_response (Js.VObj false demo_token)
                end)
      1700000000123 in
  let result :=
    exec world 0 (Derive.authorized demo_env (demo_context "twitch") ["github"; "twitch"]) in
  snd result = Returned true
  /\ stored_tokens (fst result) = [("twitch", Js.VObj false demo_token)]
  /\ Js.lookup "created_at" demo_token = None
  /\ Js.lookup "expires_in" demo_token = None
  /\ map cookie_set (skipn 5 (fst result)) =
       [ None; None; Some ("authorize", Js.VStr "signed", None) ].
Proof.
  intros world result.
  destruct (refresh_stores_response_as_received demo_env (demo_context "twitch")
              ["github"; "twitch"] (fst result) (snd result)
              (Observed (Fetch (Derive.twitch_refresh demo_env (Js.VStr "R")))
                        (json_response (Js.VObj false demo_token)))
              _ (json_response (Js.VObj false demo_token)) (Js.VObj false demo_token)
              (exec_run _ world 0)
              (or_intror (or_intror (or_intror (or_intror (or_introl eq_refl)))))
              eq_refl eq_refl eq_refl eq_refl)
    as (before & signed & _ & _ & _ & _ & Hout).
  split; [exact Hout|]. repeat split.
Defined.

(** Without [twitch] among the profiles the loop is the conjunction it
    is documented to be: it never throws, fetches or touches the storage,
    and it returns [true] only after one verification per requested
    profile. *)
Lemma authorized_other_profiles (env : BunEnv) (ctx : Context)
    (profiles : list string) (tr : Trace) (out : Outcome bool) :
  ~ In "twitch" profiles ->
  run (Derive.authorized env ctx profiles) tr out ->
  exists b : bool,
    out = Returned b
    /\ (b = true -> calls KJwtVerify tr = List.length profiles)
    /\ calls KFetch tr = 0
    /\ storage_calls tr = 0.
Proof.
  revert tr out. induction profiles as [|profile rest IH]; intros tr out Hno Hrun.
  - destruct Hrun as [-> ->]. exists true. repeat split.
  - assert (Hp : String.eqb profile "twitch" = false).
    { apply String.eqb_neq. intros ->. apply Hno. left. reflexivity. }
    destruct (authorized_step env ctx profile rest tr out Hp Hrun)
      as [[-> ->] | (token & now & [[-> ->] | (tr' & -> & Hrest)])].
    + exists false. repeat split. discriminate.
    + exists false. repeat split. discriminate.
    + destruct (IH tr' out (fun H => Hno (or_intror H)) Hrest) as (b & -> & Hall & Hf & Hs).
      exists b. split; [reflexivity|]. split; [|split; assumption].
      intros Hb. unfold calls in *. simpl. f_equal. exact (Hall Hb).
Qed.

(** C3 at [authorized('twitch', 'github')] with a session that expired
    long ago and a validation endpoint that accepts it: the call returns
    [true] after the [twitch] turn, without a turn for [github]; alone, or
    listed first, [github] makes the call return [false]. *)
Theorem authorized_twitch_ends_the_loop :
  let session := demo_session 1000 in
  let accepted := json_response (Js.VObj false demo_certificate) in
  let world := demo_world true (Some session) (fun _ => accepted) 1700000000123 in
  let ctx := demo_context "twitch" in
  exec world 0 (Derive.authorized demo_env ctx ["twitch"; "github"]) =
    ( [ Observed (JwtVerify (Some "cookie")) (Some session);
        Observed (Fetch (twitch_validate (Js.VStr "X"))) accepted ],
      Returned true )
  /\ exec world 0 (Derive.authorized demo_env ctx ["github"]) =
    ( [ Observed (JwtVerify (Some "cookie")) (Some session);
        Observed DateNow 1700000000123%Z ],
      Returned false )
  /\ exec world 0 (Derive.authorized demo_env ctx ["github"; "twitch"]) =
    ( [ Observed (JwtVerify (Some "cookie")) (Some session);
        Observed DateNow 1700000000123%Z ],
      Returned false ).
Proof. cbv zeta. repeat split. Qed.

(* ================================================================== *)
(** * Further properties of the handlers *)

(** ** Login: when a state token is generated *)

(** The login handler asks the state collaborator for a token only for a
    registered profile, and then it returns the redirect; for every other
    name it ends without having made a single call, with the 404 response
    or, for a name the profiles only inherit, with a [TypeError]. *)
Theorem login_generates_state_only_to_redirect
    (cfg : TPluginParams) (req : Context)
    (tr : Trace) (out : Outcome HandlerResult) :
  run (login_handler cfg req) tr out ->
  (exists p state location,
      Js.lookup (name req) (profiles cfg) = Some p
      /\ tr = [Observed (StateGenerate (request req) (name req)) state]
      /\ out = Returned (HRedirect location)
      /\ endpoint location = url (auth (provider p)))
  \/ (Js.lookup (name req) (profiles cfg) = None
      /\ tr = []
      /\ (out = Returned (HResponse 404 "Not Found" "") \/ out = Thrown TypeError)).
Proof.
  intros Hrun.
  unfold login_handler, resolveProvider, globalProfiles, Js.has_property, Js.hasOwn in Hrun.
  destruct (Js.lookup (name req) (profiles cfg)) as [p|] eqn:Hreg.
  - cbn [orb negb bind call run] in Hrun.
    destruct Hrun as (state & rest & -> & -> & ->).
    left. exists p, state. eexists. repeat split.
  - right. split; [reflexivity|].
    destruct (existsb (String.eqb (name req)) Js.Object_prototype_keys);
      cbn [orb negb run] in Hrun; destruct Hrun as [-> ->]; split; auto.
Qed.

Lemma login_generates_state_only_to_redirect_witness :
  let world := demo_world true None (fun _ => demo_bad_gateway) 0 in
  let unknown := exec world 0 (login_handler (demo_config []) (demo_context "gitlab")) in
  let known := exec world 0 (login_handler (demo_config []) (demo_context "github")) in
  calls KStateGenerate (fst unknown) = 0
  /\ calls KStateGenerate (fst known) = 1.
Proof.
  intros world unknown known.
  destruct (login_generates_state_only_to_redirect (demo_config []) (demo_context "gitlab")
              (fst unknown) (snd unknown) (exec_run _ world 0))
    as [(p & state & location & Hreg & _) | (_ & Htr & _)].
  - discriminate Hreg.
  - split; [rewrite Htr|]; reflexivity.
Defined.

(** ** The callback: all or nothing *)

Lemma receive_token_all_or_nothing cfg req response tr out :
  run (receive_token cfg req response) tr out ->
  (exists before stored age signed,
      out = Returned (HMessage "Found redirect")
      /\ tr = before ++ session_calls cfg req stored age signed
      /\ calls KStorageSet before = 0 /\ calls KJwtSign before = 0
      /\ calls KSetCookie before = 0 /\ calls KSetStatus before = 0
      /\ calls KSetRedirect before = 0)
  \/ (exists e,
        out = Thrown e
        /\ calls KStorageSet tr = 0 /\ calls KJwtSign tr = 0
        /\ calls KSetCookie tr = 0 /\ calls KSetStatus tr = 0
        /\ calls KSetRedirect tr = 0).
Proof.
  intros Hrun. unfold receive_token in Hrun.
  destruct (negb (ok response) || negb (json_content_type response)).
  { destruct Hrun as [-> ->]. right. eexists. repeat split. }
  destruct (json response) as [[| | | | |is_array fields]|];
    try (destruct Hrun as [-> ->]; right; eexists; repeat split).
  cbn [bind call run] in Hrun. destruct Hrun as (now & tr1 & -> & Hrun).
  destruct (String.eqb (name req) "twitch").
  - cbn [bind call run] in Hrun. destruct Hrun as (validation & tr2 & -> & Hrun).
    destruct (ok validation).
    + destruct (json validation) as [certificate|].
      * apply establish_session_runs in Hrun. destruct Hrun as (signed & -> & ->).
        left.
        exists [ Observed DateNow now;
                 Observed (Fetch (twitch_validate (Js.get "access_token" (stamp fields now))))
                          validation ].
        do 3 eexists. repeat split.
      * destruct Hrun as [-> ->]. right. eexists. repeat split.
    + destruct Hrun as [-> ->]. right. eexists. repeat split.
  - apply establish_session_runs in Hrun. destruct Hrun as (signed & -> & ->).
    left. exists [Observed DateNow now]. do 3 eexists. repeat split.
Qed.

(** The runs of a callback for a registered profile, in which every call
    made returns: one that returns ends with the five session calls, one
    that ends at a [throw] of the handler, at [decodeURIComponent] or at
    [json()] has made none of them. *)
Lemma callback_session_or_none
    (cfg : TPluginParams) (req : Context) (p : TOAuth2Profile)
    (tr : Trace) (out : Outcome HandlerResult) :
  Js.lookup (name req) (profiles cfg) = Some p ->
  run (authorized_handler cfg req) tr out ->
  (exists before stored age signed,
      out = Returned (HMessage "Found redirect")
      /\ tr = before ++ session_calls cfg req stored age signed
      /\ calls KStorageSet before = 0 /\ calls KJwtSign before = 0
      /\ calls KSetCookie before = 0 /\ calls KSetStatus before = 0
      /\ calls KSetRedirect before = 0)
  \/ (exists e,
        out = Thrown e
        /\ calls KStorageSet tr = 0 /\ calls KJwtSign tr = 0
        /\ calls KSetCookie tr = 0 /\ calls KSetStatus tr = 0
        /\ calls KSetRedirect tr = 0).
Proof.
  intros Hreg Hrun.
  destruct (callback_runs _ _ _ _ _ Hreg Hrun)
    as [[-> ->] | [[-> ->] | (decoded & credentials & resp & rest & -> & Hrest)]].
  - right. eexists. repeat split.
  - right. eexists. repeat split.
  - apply receive_token_all_or_nothing in Hrest.
    destruct Hrest as [(before & stored & age & signed & -> & -> & H1 & H2 & H3 & H4 & H5)
                      | (e & -> & H1 & H2 & H3 & H4 & H5)].
    + left.
      exists (Observed (StateCheck (request req) (name req) (callbackState req)) true
                :: Observed (DecodeURIComponent
                               (match code req with Some c => c | None => "undefined" end))
                            (Some decoded)
                :: Observed (Btoa (clientId (provider p) ++ ":" ++ clientSecret (provider p)))
                            credentials
                :: Observed (Fetch (token_request cfg (provider p) (name req) decoded credentials))
                            resp
                :: before).
      exists stored, age, signed. repeat split; assumption.
    + right. exists e. repeat split; assumption.
Qed.

(** A callback for a registered profile that returns, returns the
    message "Found redirect", and its last five calls are
    [storage.set(request, name, stored)], [jwt.sign(stored)],
    [setCookie('authorize', signature, { maxAge })], [set.status = 'Found']
    and [set.redirect] to the external URI built from [redirectTo]: each
    made once, in this order, and none of the five kinds earlier. *)
Theorem callback_returns_after_session
    (cfg : TPluginParams) (req : Context) (p : TOAuth2Profile)
    (tr : Trace) (result : HandlerResult) :
  Js.lookup (name req) (profiles cfg) = Some p ->
  run (authorized_handler cfg req) tr (Returned result) ->
  exists before stored age signed,
    result = HMessage "Found redirect"
    /\ tr = before ++
            [ Observed (StorageSet (request req) (name req) stored) tt;
              Observed (JwtSign stored) signed;
              Observed (SetCookie "authorize" (Js.VStr signed)
                          (Some {| expires := None; maxAge := Some age |})) tt;
              Observed (SetStatus "Found") tt;
              Observed (SetRedirect
                          (buildUri cfg
                             (match redirectTo cfg with
                              | Some configured =>
                                  if String.eqb configured "" then "/user/:name/profile"
                                  else configured
                              | None => "/user/:name/profile"
                              end)
                             (name req) true)) tt ]
    /\ calls KStorageSet before = 0 /\ calls KJwtSign before = 0
    /\ calls KSetCookie before = 0 /\ calls KSetStatus before = 0
    /\ calls KSetRedirect before = 0.
Proof.
  intros Hreg Hrun.
  destruct (callback_session_or_none cfg req p tr _ Hreg Hrun)
    as [(before & stored & age & signed & Hout & -> & H1 & H2 & H3 & H4 & H5)
       | (e & Hout & _)]; [|discriminate].
  injection Hout as ->.
  exists before, stored, age, signed. repeat split; assumption.
Qed.

Lemma callback_returns_after_session_witness :
  let world :=
    demo_world true None
      (demo_provider_answers (Js.VObj false demo_token) Js.VNull) 1700000000123 in
  let result := exec world 0 (authorized_handler demo_config_hosted (demo_context "github")) in
  snd result = Returned (HMessage "Found redirect")
  /\ map kind_of (skipn 5 (fst result)) =
       [KStorageSet; KJwtSign; KSetCookie; KSetStatus; KSetRedirect]
  /\ exists before stored age signed,
       fst result = before ++
         [ Observed (StorageSet demo_request "github" stored) tt;
           Observed (JwtSign stored) signed;
           Observed (SetCookie "authorize" (Js.VStr signed)
                       (Some {| expires := None; maxAge := Some age |})) tt;
           Observed (SetStatus "Found") tt;
           Observed (SetRedirect "https://example.com/app/welcome/github") tt ]
       /\ calls KStorageSet before = 0
       /\ calls KSetCookie before = 0.
Proof.
  intros world result.
  destruct (callback_returns_after_session demo_config_hosted (demo_context "github")
              {| scope := ["user"]; provider := demo_provider "github.example" [] |}
              (fst result) (HMessage "Found redirect") eq_refl (exec_run _ world 0))
    as (before & stored & age & signed & _ & Htr & Hset & _ & Hcookie & _).
  split; [reflexivity|]. split; [reflexivity|].
  exists before, stored, age, signed.
  split; [exact Htr|]. split; [exact Hset | exact Hcookie].
Defined.

(** ** The callback: the token request *)

Lemma tokenParams_NoDup cfg p name code :
  NoDup (map fst (tokenParams cfg p name code)).
Proof.
  unfold tokenParams. simpl.
  repeat constructor; simpl; intuition discriminate.
Qed.

(** The one [POST] of a callback goes to the provider's token URL, after
    the state check has passed and [decodeURIComponent] has returned: it
    carries the three headers, the credentials being what [btoa] returned
    for [clientId:clientSecret], and a form that reads, key by key, the
    provider's token parameter when there is one and otherwise the
    handler's own ([client_id], [client_secret], [redirect_uri],
    [grant_type], and [code], the decoded query code). *)
Theorem callback_token_request
    (cfg : TPluginParams) (req : Context) (p : TOAuth2Profile)
    (tr : Trace) (out : Outcome HandlerResult)
    (o : Obs) (r : FetchRequest) (response : Response) :
  Js.lookup (name req) (profiles cfg) = Some p ->
  NoDup (map fst (params (token (provider p)))) ->
  run (authorized_handler cfg req) tr out ->
  In o tr -> fetch_exchange o = Some (r, response) -> method r = POST ->
  exists (decoded credentials : string) (rest : Trace) (form : Js.Obj),
    tr = Observed (StateCheck (request req) (name req) (callbackState req)) true
           :: Observed (DecodeURIComponent
                          (match code req with Some c => c | None => "undefined" end))
                       (Some decoded)
           :: Observed (Btoa (clientId (provider p) ++ ":" ++ clientSecret (provider p)))
                       credentials
           :: Observed (Fetch r) response
           :: rest
    /\ fetch_url r = url (token (provider p))
    /\ headers r =
         [ ("Content-Type", Js.Lit "application/x-www-form-urlencoded");
           ("Accept", Js.Lit "application/json");
           ("Authorization", Js.Interp "Basic " (Js.VStr credentials)) ]
    /\ body r = Some form
    /\ forall k,
         Js.lookup k form =
         match Js.lookup k (params (token (provider p))) with
         | Some v => Some v
         | None =>
             Js.lookup k
               [ ("client_id", Js.VStr (clientId (provider p)));
                 ("client_secret", Js.VStr (clientSecret (provider p)));
                 ("redirect_uri",
                  Js.VStr (buildUri cfg
                             (match authorized cfg with
                              | Some configured =>
                                  if String.eqb configured "" then "/login/:name/authorized"
                                  else configured
                              | None => "/login/:name/authorized"
                              end)
                             (name req) true));
                 ("grant_type", Js.VStr "authorization_code");
                 ("code", Js.VStr decoded) ]
         end.
Proof.
  intros Hreg Hnd Hrun Hin Hex Hpost.
  destruct (callback_runs _ _ _ _ _ Hreg Hrun)
    as [[-> ->] | [[-> ->] | (decoded & credentials & resp & rest & -> & Hrest)]].
  - in_cases Hin; discriminate.
  - in_cases Hin; discriminate.
  - simpl in Hin. destruct Hin as [<- | [<- | [<- | [<- | Hin]]]]; try discriminate.
    2: { rewrite (receive_token_fetches_get _ _ _ _ _ _ _ _ Hrest Hin Hex) in Hpost.
         discriminate. }
    simpl in Hex. injection Hex as <- <-.
    exists decoded, credentials, rest. eexists.
    split; [reflexivity|]. split; [reflexivity|]. split; [reflexivity|].
    split; [reflexivity|].
    intros k. apply lookup_spread2; [apply tokenParams_NoDup | exact Hnd].
Qed.

Lemma callback_token_request_witness :
  let world :=
    demo_world true None
      (demo_provider_answers (Js.VObj false demo_token) Js.VNull) 1700000000123 in
  let result := exec world 0 (authorized_handler demo_config_hosted (demo_context "github")) in
  exists r form,
    option_map fst (nth 3 (map fetch_exchange (fst result)) None) = Some r
    /\ body r = Some form
    /\ fetch_url r = "https://github.example/token"
    /\ calls KFetch (fst result) = 1
    /\ Js.lookup "grant_type" form = Some (Js.VStr "authorization_code")
    /\ Js.lookup "code" form = Some (Js.VStr "abc")
    /\ Js.lookup "client_id" form = Some (Js.VStr "id")
    /\ Js.lookup "client_secret" form = Some (Js.VStr "secret")
    /\ Js.lookup "redirect_uri" form
       = Some (Js.VStr "https://example.com/app/login/github/authorized").
Proof.
  intros world result.
  destruct (callback_token_request demo_config_hosted (demo_context "github")
              {| scope := ["user"]; provider := demo_provider "github.example" [] |}
              (fst result) (snd result)
              (Observed
                 (Fetch (token_request demo_config_hosted
                           (demo_provider "github.example" []) "github" "abc" "aWQ6c2VjcmV0"))
                 (json_response (Js.VObj false demo_token)))
              _ (json_response (Js.VObj false demo_token))
              eq_refl (NoDup_nil _)
              (exec_run _ world 0)
              (or_intror (or_intror (or_intror (or_introl eq_refl))))
              eq_refl eq_refl)
    as (decoded & credentials & rest & form & Htr & Hurl & _ & Hbody & Hform).
  assert (Hdecoded : decoded = "abc").
  { apply (f_equal (fun l => map decode_answer (firstn 2 l))) in Htr.
    simpl in Htr. injection Htr as Hd. symmetry. exact Hd. }
  subst decoded.
  eexists. exists form. split; [reflexivity|]. split; [exact Hbody|].
  split; [exact Hurl|]. split; [reflexivity|].
  rewrite !Hform. repeat split.
Defined.

(** ** The callback: what is stored *)

(** Writing a property keeps the keys of an object pairwise distinct. *)
Lemma set_NoDup {V : Type} (k : string) (v : V) (o : Js.Props V) :
  NoDup (map fst o) -> NoDup (map fst (Js.set k v o)).
Proof.
  intros Hnd. unfold Js.set. destruct (Js.lookup k o) eqn:Hk.
  - assert (Hkeys : forall o', map fst (Js.overwrite k v o') = map fst o').
    { induction o' as [|[k1 v1] o' IH]; simpl; [reflexivity|].
      destruct (String.eqb k k1); simpl; [reflexivity | rewrite IH; reflexivity]. }
    rewrite Hkeys. exact Hnd.
  - apply lookup_none_not_in in Hk.
    assert (Hnew : NoDup (k :: map fst o)) by (constructor; assumption).
    unfold Js.define. destruct (Js.array_index k) as [i|].
    + apply (Permutation_NoDup (l := k :: map fst o)); [|exact Hnew].
      clear. induction o as [|[k1 v1] o IH]; simpl; [reflexivity|].
      destruct (Js.array_index k1) as [j|]; [destruct (i <? j)%N|]; simpl;
        try reflexivity.
      rewrite <- IH. apply perm_swap.
    + rewrite map_app. simpl.
      apply (Permutation_NoDup (l := k :: map fst o)); [|exact Hnew].
      apply Permutation_cons_append.
Qed.

Lemma stamp_NoDup (fields : Js.Obj) (now : Z) :
  NoDup (map fst fields) -> NoDup (map fst (stamp fields now)).
Proof.
  intros Hnd. unfold stamp. apply set_NoDup, set_NoDup, Hnd.
Qed.

(** For a profile other than [twitch], a callback whose token request is
    answered 2xx with a JSON object calls [storage.set] exactly once,
    under the profile's name, with an object that has every field of the
    response as the provider sent it, [expires_in] and [created_at]
    apart. *)
Theorem callback_stores_provider_fields
    (cfg : TPluginParams) (req : Context) (p : TOAuth2Profile)
    (tr : Trace) (out : Outcome HandlerResult)
    (o : Obs) (r : FetchRequest) (response : Response)
    (is_array : bool) (fields : Js.Obj) :
  Js.lookup (name req) (profiles cfg) = Some p ->
  name req <> "twitch" ->
  run (authorized_handler cfg req) tr out ->
  In o tr -> fetch_exchange o = Some (r, response) -> method r = POST ->
  ok response = true -> json_content_type response = true ->
  json response = Some (Js.VObj is_array fields) ->
  exists stored : Js.Obj,
    stored_tokens tr = [(name req, Js.VObj is_array stored)]
    /\ (forall k, k <> "expires_in" -> k <> "created_at" ->
          Js.get k stored = Js.get k fields)
    /\ out = Returned (HMessage "Found redirect").
Proof.
  intros Hreg Hname Hrun Hin Hex Hpost Hok Hct Hjson.
  destruct (callback_runs _ _ _ _ _ Hreg Hrun)
    as [[-> ->] | [[-> ->] | (decoded & credentials & resp & rest & -> & Hrest)]].
  - in_cases Hin; discriminate.
  - in_cases Hin; discriminate.
  - simpl in Hin. destruct Hin as [<- | [<- | [<- | [<- | Hin]]]]; try discriminate.
    2: { rewrite (receive_token_fetches_get _ _ _ _ _ _ _ _ Hrest Hin Hex) in Hpost.
         discriminate. }
    simpl in Hex. injection Hex as <- <-.
    unfold receive_token in Hrest.
    rewrite Hok, Hct, Hjson in Hrest. cbn [negb orb bind call run] in Hrest.
    destruct Hrest as (now & after & -> & Hrest).
    apply String.eqb_neq in Hname. rewrite Hname in Hrest.
    apply establish_session_runs in Hrest. destruct Hrest as (signed & -> & ->).
    exists (stamp fields now). split; [reflexivity|]. split; [|reflexivity].
    intros k He Hc. apply (stamp_fields fields now); assumption.
Qed.

Lemma callback_stores_provider_fields_witness :
  let world :=
    demo_world true None
      (demo_provider_answers (Js.VObj false demo_token) Js.VNull) 1700000000123 in
  let result := exec world 0 (authorized_handler (demo_config []) (demo_context "github")) in
  exists stored,
    stored_tokens (fst result) = [("github", Js.VObj false stored)]
    /\ Js.get "access_token" stored = Js.VStr "X".
Proof.
  intros world result.
  destruct (callback_stores_provider_fields (demo_config []) (demo_context "github")
              {| scope := ["user"]; provider := demo_provider "github.example" [] |}
              (fst result) (snd result)
              (Observed
                 (Fetch (token_request (demo_config [])
                           (demo_provider "github.example" []) "github" "abc" "aWQ6c2VjcmV0"))
                 (json_response (Js.VObj false demo_token)))
              _ (json_response (Js.VObj false demo_token)) false demo_token
              eq_refl
              (fun H : "github" = "twitch" => ltac:(discriminate H))
              (exec_run _ world 0)
              (or_intror (or_intror (or_intror (or_introl eq_refl))))
              eq_refl eq_refl eq_refl eq_refl eq_refl)
    as (stored & Hstored & Hfields & _).
  exists stored. split; [exact Hstored|].
  rewrite Hfields; [reflexivity | discriminate | discriminate].
Defined.

(** For [twitch], when the token request and then the validation request
    are both answered 2xx with JSON, [storage.set] is called exactly once,
    with a plain object that reads, key by key, the validation response
    when it has the key and the stamped token otherwise. *)
Theorem twitch_callback_stores_overlay
    (cfg : TPluginParams) (req : Context) (p : TOAuth2Profile)
    (tr : Trace) (out : Outcome HandlerResult)
    (o : Obs) (r : FetchRequest) (response : Response)
    (is_array : bool) (fields : Js.Obj)
    (v : Obs) (vr : FetchRequest) (validation : Response) (certificate : Js.Value) :
  Js.lookup (name req) (profiles cfg) = Some p ->
  name req = "twitch" ->
  NoDup (map fst fields) ->
  NoDup (map fst (Js.own_enumerable certificate)) ->
  run (authorized_handler cfg req) tr out ->
  In o tr -> fetch_exchange o = Some (r, response) -> method r = POST ->
  ok response = true -> json_content_type response = true ->
  json response = Some (Js.VObj is_array fields) ->
  In v tr -> fetch_exchange v = Some (vr, validation) -> method vr = GET ->
  ok validation = true -> json validation = Some certificate ->
  exists (now : Z) (merged : Js.Obj),
    stored_tokens tr = [("twitch", Js.VObj false merged)]
    /\ (forall k,
          Js.lookup k merged =
          match Js.lookup k (Js.own_enumerable certificate) with
          | Some x => Some x
          | None => Js.lookup k (stamp fields now)
          end)
    /\ out = Returned (HMessage "Found redirect").
Proof.
  intros Hreg Hname Hnf Hnc Hrun Hin Hex Hpost Hok Hct Hjson Hinv Hexv Hget Hokv Hjsonv.
  destruct (callback_runs _ _ _ _ _ Hreg Hrun)
    as [[-> ->] | [[-> ->] | (decoded & credentials & resp & rest & -> & Hrest)]].
  - in_cases Hin; discriminate.
  - in_cases Hin; discriminate.
  - simpl in Hin. destruct Hin as [<- | [<- | [<- | [<- | Hin]]]]; try discriminate.
    2: { rewrite (receive_token_fetches_get _ _ _ _ _ _ _ _ Hrest Hin Hex) in Hpost.
         discriminate. }
    simpl in Hex. injection Hex as <- <-.
    unfold receive_token in Hrest.
    rewrite Hok, Hct, Hjson in Hrest. cbn [negb orb bind call run] in Hrest.
    destruct Hrest as (now & after & -> & Hrest).
    rewrite Hname in Hrest. cbn [String.eqb Ascii.eqb Bool.eqb bind call run] in Hrest.
    destruct Hrest as (validation' & rest & -> & Hrest).
    simpl in Hinv.
    destruct Hinv as [<- | [<- | [<- | [<- | [<- | [<- | Hinv]]]]]]; try discriminate.
    + simpl in Hexv. injection Hexv as <- _. discriminate.
    + simpl in Hexv. injection Hexv as <- <-.
      rewrite Hokv, Hjsonv in Hrest.
      apply establish_session_runs in Hrest. destruct Hrest as (signed & -> & ->).
      exists now. eexists. split; [cbn; rewrite Hname; reflexivity|]. split; [|reflexivity].
      intros k. apply lookup_spread2; [apply stamp_NoDup, Hnf | exact Hnc].
    + destruct (ok validation').
      * destruct (json validation').
        -- apply establish_session_runs in Hrest. destruct Hrest as (signed & -> & _).
           in_cases Hinv; discriminate.
        -- destruct Hrest as [-> _]. destruct Hinv.
      * destruct Hrest as [-> _]. destruct Hinv.
Qed.

Lemma twitch_callback_stores_overlay_witness :
  let world :=
    demo_world true None
      (demo_provider_answers (Js.VObj false demo_token) (Js.VObj false demo_certificate))
      1700000000123 in
  let result := exec world 0 (authorized_handler (demo_config []) (demo_context "twitch")) in
  exists merged,
    stored_tokens (fst result) = [("twitch", Js.VObj false merged)]
    /\ Js.lookup "expires_in" merged = Some (Js.VNum 5000)
    /\ Js.lookup "login" merged = Some (Js.VStr "user").
Proof.
  intros world result.
  assert (Hnf : NoDup (map fst demo_token)).
  { repeat constructor; simpl; intuition discriminate. }
  assert (Hnc : NoDup (map fst (Js.own_enumerable (Js.VObj false demo_certificate)))).
  { repeat constructor; simpl; intuition discriminate. }
  destruct (twitch_callback_stores_overlay (demo_config []) (demo_context "twitch")
              {| scope := []; provider := demo_provider "twitch.example" [] |}
              (fst result) (snd result)
              (Observed
                 (Fetch (token_request (demo_config [])
                           (demo_provider "twitch.example" []) "twitch" "abc" "aWQ6c2VjcmV0"))
                 (json_response (Js.VObj false demo_token)))
              _ (json_response (Js.VObj false demo_token)) false demo_token
              (Observed (Fetch (twitch_validate (Js.VStr "X")))
                        (json_response (Js.VObj false demo_certificate)))
              _ (json_response (Js.VObj false demo_certificate))
              (Js.VObj false demo_certificate)
              eq_refl eq_refl Hnf Hnc
              (exec_run _ world 0)
              (or_intror (or_intror (or_intror (or_introl eq_refl))))
              eq_refl eq_refl eq_refl eq_refl eq_refl
              (or_intror (or_intror (or_intror (or_intror (or_intror (or_introl eq_refl))))))
              eq_refl eq_refl eq_refl eq_refl)
    as (now & merged & Hstored & Hmerged & _).
  exists merged. split; [exact Hstored|]. rewrite !Hmerged. split; reflexivity.
Defined.

(* ================================================================== *)
(** * Further properties of [authorized] *)

Lemma Kind_eqb_refl (k : Kind) : Kind_eqb k k = true.
Proof. destruct k; reflexivity. Qed.

Lemma calls_app (k : Kind) (l1 l2 : Trace) :
  calls k (l1 ++ l2) = calls k l1 + calls k l2.
Proof. unfold calls. rewrite filter_app, length_app. reflexivity. Qed.

Lemma calls_zero_not_in (k : Kind) (l : Trace) (o : Obs) :
  calls k l = 0 -> In o l -> kind_of o <> k.
Proof.
  unfold calls. induction l as [|x l IH]; simpl; intros Hz Hin Hk.
  - exact Hin.
  - destruct Hin as [-> | Hin].
    + rewrite Hk, Kind_eqb_refl in Hz. discriminate.
    + destruct (Kind_eqb (kind_of x) k); [discriminate|]. exact (IH Hz Hin Hk).
Qed.

Lemma fetch_exchange_kind (o : Obs) (x : FetchRequest * Response) :
  fetch_exchange o = Some x -> kind_of o = KFetch.
Proof.
  destruct o as [A e a]. destruct e; simpl; intros H; try discriminate. reflexivity.
Qed.

(** A run of [authorized]: turns for profiles other than [twitch] that
    all passed, and then the end of the list, a turn that failed, or the
    [twitch] turn, which ends the call. *)
Lemma authorized_runs (env : BunEnv) (ctx : Context)
    (profiles : list string) (tr : Trace) (out : Outcome bool) :
  run (Derive.authorized env ctx profiles) tr out ->
  exists before last,
    tr = before ++ last
    /\ calls KFetch before = 0 /\ calls KStorageSet before = 0
    /\ calls KJwtSign before = 0 /\ calls KSetCookie before = 0
    /\ ((last = [] /\ out = Returned true)
        \/ (last = [Observed (JwtVerify (cookie_authorize ctx)) None]
            /\ out = Returned false)
        \/ (exists token now,
              last = [Observed (JwtVerify (cookie_authorize ctx)) (Some token);
                      Observed DateNow now]
              /\ out = Returned false)
        \/ (exists token tr2,
              last = Observed (JwtVerify (cookie_authorize ctx)) (Some token) :: tr2
              /\ run (Derive.twitch_check env ctx token) tr2 out)).
Proof.
  revert tr. induction profiles as [|profile rest IH]; intros tr Hrun.
  - destruct Hrun as [-> ->]. exists [], []. repeat split. left. split; reflexivity.
  - destruct (String.eqb profile "twitch") eqn:Hp.
    + cbn [Derive.authorized bind call run] in Hrun. rewrite Hp in Hrun.
      destruct Hrun as ([token|] & tr' & -> & Hrun).
      * exists [], (Observed (JwtVerify (cookie_authorize ctx)) (Some token) :: tr').
        repeat split. right. right. right. exists token, tr'. split; [reflexivity | exact Hrun].
      * destruct Hrun as [-> ->]. exists [], [Observed (JwtVerify (cookie_authorize ctx)) None].
        repeat split. right. left. split; reflexivity.
    + destruct (authorized_step env ctx profile rest tr out Hp Hrun)
        as [[-> ->] | (token & now & [[-> ->] | (tr' & -> & Hrest)])].
      * exists [], [Observed (JwtVerify (cookie_authorize ctx)) None].
        repeat split. right. left. split; reflexivity.
      * exists [], [Observed (JwtVerify (cookie_authorize ctx)) (Some token);
                    Observed DateNow now].
        repeat split. right. right. left. exists token, now. split; reflexivity.
      * destruct (IH tr' Hrest) as (before & last & -> & Hf & Hs & Hg & Hc & Hlast).
        exists (Observed (JwtVerify (cookie_authorize ctx)) (Some token)
                  :: Observed DateNow now :: before), last.
        repeat split; assumption.
Qed.

(** When the cookie does not verify, [authorized] returns [false] after
    that one [jwt.verify] call, whichever profiles were asked for. *)
Theorem authorized_unverified_cookie
    (env : BunEnv) (ctx : Context) (profile : string) (rest : list string)
    (tr : Trace) (out : Outcome bool) :
  run (Derive.authorized env ctx (profile :: rest)) tr out ->
  exists verified tr',
    tr = Observed (JwtVerify (cookie_authorize ctx)) verified :: tr'
    /\ (verified = None -> tr' = [] /\ out = Returned false).
Proof.
  intros Hrun. cbn [Derive.authorized bind call run] in Hrun.
  destruct Hrun as (verified & tr' & -> & Hrun).
  exists verified, tr'. split; [reflexivity|].
  intros ->. destruct Hrun as [-> ->]. split; reflexivity.
Qed.

Lemma authorized_unverified_cookie_witness :
  let world := demo_world true None (fun _ => demo_bad_gateway) 0 in
  let result :=
    exec world 0 (Derive.authorized demo_env (demo_context "twitch") ["twitch"; "github"]) in
  snd result = Returned false /\ List.length (fst result) = 1.
Proof.
  intros world result.
  destruct (authorized_unverified_cookie demo_env (demo_context "twitch") "twitch" ["github"]
              (fst result) (snd result) (exec_run _ world 0))
    as (verified & tr' & Htr & Hnone).
  assert (Hv : verified = None).
  { apply (f_equal (fun l => map verify_answer (firstn 1 l))) in Htr.
    simpl in Htr. injection Htr as Hv. symmetry. exact Hv. }
  destruct (Hnone Hv) as [Htr' Hout].
  split; [exact Hout|]. rewrite Htr, Htr'. reflexivity.
Defined.



(** A refresh request is sent only in the [twitch] turn, right after the
    validation request for the verified cookie's [access_token] was
    refused; it carries that cookie's [refresh_token], the two
    environment variables and [grant_type=refresh_token].  No request was
    sent before the two. *)
Theorem refresh_follows_refused_validation
    (env : BunEnv) (ctx : Context) (profiles : list string)
    (tr : Trace) (out : Outcome bool)
    (o : Obs) (r : FetchRequest) (response : Response) :
  run (Derive.authorized env ctx profiles) tr out ->
  In o tr -> fetch_exchange o = Some (r, response) -> method r = POST ->
  exists before token validation after,
    tr = before
           ++ Observed (JwtVerify (cookie_authorize ctx)) (Some token)
           :: Observed (Fetch (twitch_validate (Js.get "access_token" token))) validation
           :: Observed (Fetch r) response
           :: after
    /\ calls KFetch before = 0
    /\ ok validation = false
    /\ fetch_url r = "https://id.twitch.tv/oauth2/token"
    /\ body r = Some [ ("client_id", Derive.env_value (TWITCH_OAUTH_CLIENT_ID env));
                       ("client_secret", Derive.env_value (TWITCH_CLIENT_SECRET env));
                       ("refresh_token", Js.get "refresh_token" token);
                       ("grant_type", Js.VStr "refresh_token") ].
Proof.
  intros Hrun Hin Hex Hpost.
  destruct (authorized_runs env ctx profiles tr out Hrun)
    as (before & last & -> & Hf & _ & _ & _ & Hlast).
  apply in_app_or in Hin. destruct Hin as [Hin | Hin].
  { exfalso. exact (calls_zero_not_in _ _ _ Hf Hin (fetch_exchange_kind _ _ Hex)). }
  destruct Hlast as [[-> _] | [[-> _] | [(token & now & -> & _) | (token & tr2 & -> & Htw)]]].
  - destruct Hin.
  - in_cases Hin; discriminate.
  - in_cases Hin; discriminate.
  - apply twitch_check_runs in Htw. cbv zeta in Htw.
    destruct Htw as (validation & [(_ & -> & _) | (Hno & refreshed & Htw)]).
    { in_cases Hin; try discriminate. simpl in Hex. injection Hex as <- _. discriminate. }
    exists before, token, validation.
    destruct Htw as [(_ & -> & _) | [(_ & _ & -> & _) | (_ & t & signed & _ & -> & _)]];
      in_cases Hin; try discriminate; simpl in Hex; injection Hex as <- <-;
      try discriminate; eexists; repeat split; assumption.
Qed.

(** When the refresh request is refused (answered outside 200-299),
    [authorized] returns [false]: it does not throw, and it has stored
    nothing, signed nothing and set no cookie. *)
Theorem refused_refresh_is_false
    (env : BunEnv) (ctx : Context) (profiles : list string)
    (tr : Trace) (out : Outcome bool)
    (o : Obs) (r : FetchRequest) (response : Response) :
  run (Derive.authorized env ctx profiles) tr out ->
  In o tr -> fetch_exchange o = Some (r, response) -> method r = POST ->
  ok response = false ->
  out = Returned false
  /\ calls KStorageSet tr = 0 /\ calls KJwtSign tr = 0 /\ calls KSetCookie tr = 0.
Proof.
  intros Hrun Hin Hex Hpost Hok.
  destruct (authorized_runs env ctx profiles tr out Hrun)
    as (before & last & -> & Hf & Hs & Hg & Hc & Hlast).
  apply in_app_or in Hin. destruct Hin as [Hin | Hin].
  { exfalso. exact (calls_zero_not_in _ _ _ Hf Hin (fetch_exchange_kind _ _ Hex)). }
  rewrite !calls_app, Hs, Hg, Hc.
  destruct Hlast as [[-> _] | [[-> _] | [(token & now & -> & _) | (token & tr2 & -> & Htw)]]].
  - destruct Hin.
  - in_cases Hin; discriminate.
  - in_cases Hin; discriminate.
  - apply twitch_check_runs in Htw. cbv zeta in Htw.
    destruct Htw as (validation & [(_ & -> & _) | (Hno & refreshed & Htw)]).
    { in_cases Hin; try discriminate. simpl in Hex. injection Hex as <- _. discriminate. }
    destruct Htw as [(_ & -> & ->) | [(Hyes & _ & -> & _) | (Hyes & t & signed & _ & -> & _)]];
      in_cases Hin; try discriminate; simpl in Hex; injection Hex as <- <-;
      try discriminate; try congruence.
    repeat split.
Qed.

(** When the validation request is accepted, [authorized] returns [true]
    at once: that request is the only one sent, and nothing is stored,
    signed or set. *)
Theorem accepted_validation_is_true
    (env : BunEnv) (ctx : Context) (profiles : list string)
    (tr : Trace) (out : Outcome bool)
    (o : Obs) (r : FetchRequest) (response : Response) :
  run (Derive.authorized env ctx profiles) tr out ->
  In o tr -> fetch_exchange o = Some (r, response) -> method r = GET ->
  ok response = true ->
  out = Returned true
  /\ calls KFetch tr = 1
  /\ calls KStorageSet tr = 0 /\ calls KJwtSign tr = 0 /\ calls KSetCookie tr = 0
  /\ exists before, tr = before ++ [o].
Proof.
  intros Hrun Hin Hex Hget Hok.
  destruct (authorized_runs env ctx profiles tr out Hrun)
    as (before & last & -> & Hf & Hs & Hg & Hc & Hlast).
  apply in_app_or in Hin. destruct Hin as [Hin | Hin].
  { exfalso. exact (calls_zero_not_in _ _ _ Hf Hin (fetch_exchange_kind _ _ Hex)). }
  rewrite !calls_app, Hf, Hs, Hg, Hc.
  destruct Hlast as [[-> _] | [[-> _] | [(token & now & -> & _) | (token & tr2 & -> & Htw)]]].
  - destruct Hin.
  - in_cases Hin; discriminate.
  - in_cases Hin; discriminate.
  - apply twitch_check_runs in Htw. cbv zeta in Htw.
    destruct Htw as (validation & [(_ & -> & ->) | (Hno & refreshed & Htw)]).
    + in_cases Hin; try discriminate.
      repeat split.
      exists (before ++ [Observed (JwtVerify (cookie_authorize ctx)) (Some token)]).
      rewrite <- app_assoc. reflexivity.
    + destruct Htw as [(_ & -> & _) | [(_ & _ & -> & _) | (_ & t & signed & _ & -> & _)]];
        in_cases Hin; try discriminate; simpl in Hex; injection Hex as <- <-;
        try discriminate; congruence.
Qed.

Lemma refresh_follows_refused_validation_witness :
  let world :=
    demo_world true (Some (demo_session 1700000000))
      (fun r => match method r with
                | GET => demo_unauthorized
                | POST => json_response (Js.VObj false demo_token)
                end)
      1700000000123 in
  let result :=
    exec world 0 (Derive.authorized demo_env (demo_context "twitch") ["github"; "twitch"]) in
  exists before token validation after,
    fst result =
      before
        ++ Observed (JwtVerify (Some "cookie")) (Some token)
        :: Observed (Fetch (twitch_validate (Js.get "access_token" token))) validation
        :: Observed (Fetch (Derive.twitch_refresh demo_env (Js.VStr "R")))
                    (json_response (Js.VObj false demo_token))
        :: after
    /\ ok validation = false.
Proof.
  intros world result.
  destruct (refresh_follows_refused_validation demo_env (demo_context "twitch")
              ["github"; "twitch"] (fst result) (snd result)
              (Observed (Fetch (Derive.twitch_refresh demo_env (Js.VStr "R")))
                        (json_response (Js.VObj false demo_token)))
              _ (json_response (Js.VObj false demo_token))
              (exec_run _ world 0)
              (or_intror (or_intror (or_intror (or_intror (or_introl eq_refl)))))
              eq_refl eq_refl)
    as (before & token & validation & after & Htr & _ & Hno & _).
  exists before, token, validation, after. split; [exact Htr | exact Hno].
Defined.

Lemma refused_refresh_is_false_witness :
  let world :=
    demo_world true (Some (demo_session 1700000000))
      (fun r => match method r with
                | GET => demo_unauthorized
                | POST => demo_bad_gateway
                end)
      1700000000123 in
  let result := exec world 0 (Derive.authorized demo_env (demo_context "twitch") ["twitch"]) in
  ok demo_bad_gateway = false
  /\ snd result = Returned false
  /\ calls KStorageSet (fst result) = 0.
Proof.
  intros world result.
  destruct (refused_refresh_is_false demo_env (demo_context "twitch") ["twitch"]
              (fst result) (snd result)
              (Observed (Fetch (Derive.twitch_refresh demo_env (Js.VStr "R"))) demo_bad_gateway)
              _ demo_bad_gateway
              (exec_run _ world 0)
              (or_intror (or_intror (or_introl eq_refl)))
              eq_refl eq_refl eq_refl)
    as (Hout & Hset & _).
  split; [reflexivity|]. split; [exact Hout | exact Hset].
Defined.

Lemma accepted_validation_is_true_witness :
  let accepted := json_response (Js.VObj false demo_certificate) in
  let world := demo_world true (Some (demo_session 1700000000)) (fun _ => accepted)
                 1700000000123 in
  let result :=
    exec world 0 (Derive.authorized demo_env (demo_context "twitch") ["twitch"; "github"]) in
  snd result = Returned true /\ calls KFetch (fst result) = 1.
Proof.
  intros accepted world result.
  destruct (accepted_validation_is_true demo_env (demo_context "twitch") ["twitch"; "github"]
              (fst result) (snd result)
              (Observed (Fetch (twitch_validate (Js.VStr "X"))) accepted)
              _ accepted
              (exec_run _ world 0)
              (or_intror (or_introl eq_refl))
              eq_refl eq_refl eq_refl)
    as (Hout & Hfetch & _).
  split; [exact Hout | exact Hfetch].
Defined.

Lemma authorized_other_profiles_witness :
  let world := demo_world true (Some (demo_session 1700000000)) (fun _ => demo_bad_gateway)
                 1700000000123 in
  let result :=
    exec world 0 (Derive.authorized demo_env (demo_context "github") ["github"; "discord"]) in
  exists b,
    snd result = Returned b
    /\ calls KFetch (fst result) = 0
    /\ storage_calls (fst result) = 0.
Proof.
  intros world result.
  assert (Hno : ~ In "twitch" ["github"; "discord"]).
  { simpl. intuition discriminate. }
  destruct (authorized_other_profiles demo_env (demo_context "github") ["github"; "discord"]
              (fst result) (snd result) Hno (exec_run _ world 0))
    as (b & Hout & _ & Hf & Hs).
  exists b. split; [exact Hout|]. split; [exact Hf | exact Hs].
Defined.

(* ================================================================== *)
(** * The URIs of a profile *)

Lemma string_length_append (a b : string) :
  String.length (a ++ b) = String.length a + String.length b.
Proof. induction a as [|c a IH]; simpl; [reflexivity | rewrite IH; reflexivity]. Qed.


Lemma string_app_inv_head (s a b : string) : (s ++ a = s ++ b)%string -> a = b.
Proof.
  induction s as [|c s IH]; simpl; intros H; [exact H|].
  injection H as H. exact (IH H).
Qed.

Lemma string_app_inv_tail (a b t : string) : (a ++ t = b ++ t)%string -> a = b.
Proof.
  revert b. induction a as [|c a IH]; intros [|d b] H; simpl in H.
  - reflexivity.
  - apply (f_equal String.length) in H. simpl in H.
    rewrite string_length_append in H. lia.
  - apply (f_equal String.length) in H. simpl in H.
    rewrite string_length_append in H. lia.
  - injection H as -> H. rewrite (IH b H). reflexivity.
Qed.

Lemma substring_all (s : string) : String.substring 0 (String.length s) s = s.
Proof. induction s as [|c s IH]; simpl; [reflexivity | rewrite IH; reflexivity]. Qed.

Lemma prefix_split (pat s : string) :
  String.prefix pat s = true -> s = (pat ++ Js.drop (String.length pat) s)%string.
Proof.
  unfold Js.drop. revert s. induction pat as [|c pat IH]; intros s H.
  - simpl. rewrite Nat.sub_0_r, substring_all. reflexivity.
  - destruct s as [|d s]; simpl in H; [discriminate|].
    destruct (ascii_dec c d) as [<-|]; [|discriminate].
    simpl. rewrite <- (IH s H). reflexivity.
Qed.

Lemma split_at_first_eq (pat s : string) :
  Js.split_at_first pat s =
  if String.prefix pat s then Some (EmptyString, Js.drop (String.length pat) s)
  else
    match s with
    | EmptyString => None
    | String c rest =>
        match Js.split_at_first pat rest with
        | Some (before, after) => Some (String c before, after)
        | None => None
        end
    end.
Proof. destruct s; reflexivity. Qed.

(** [split_at_first] does split its argument around the pattern. *)
Lemma split_at_first_sound (pat s before after : string) :
  Js.split_at_first pat s = Some (before, after) ->
  s = (before ++ pat ++ after)%string.
Proof.
  revert before. induction s as [|c s IH]; intros before H;
    rewrite split_at_first_eq in H.
  - destruct (String.prefix pat "") eqn:Hp; [|discriminate].
    injection H as <- <-. apply prefix_split, Hp.
  - destruct (String.prefix pat (String c s)) eqn:Hp.
    + injection H as <- <-. apply prefix_split, Hp.
    + destruct (Js.split_at_first pat s) as [[b a]|]; [|discriminate].
      injection H as <- <-. simpl. rewrite <- (IH b eq_refl). reflexivity.
Qed.

(** A text without [$] is its own replacement. *)
Lemma GetSubstitution_dollar_free (matched before after s : string) :
  dollar_free s = true -> Js.GetSubstitution matched before after s = s.
Proof.
  induction s as [|c s IH]; simpl; intros H; [reflexivity|].
  apply andb_true_iff in H. destruct H as [Hc Hs].
  apply negb_true_iff in Hc. rewrite Hc, (IH Hs). reflexivity.
Qed.


(** For a template with [:name], two profile names without [$] that get
    the same URI are the same name. *)
Theorem buildUri_separates_names
    (cfg : TPluginParams) (template name1 name2 : string) (external : bool) :
  Js.split_at_first ":name" template <> None ->
  dollar_free name1 = true -> dollar_free name2 = true ->
  buildUri cfg template name1 external = buildUri cfg template name2 external ->
  name1 = name2.
Proof.
  intros Hs H1 H2 Heq.
  unfold buildUri, Js.replace in Heq.
  destruct (Js.split_at_first ":name" template) as [[before after]|]; [|contradiction].
  rewrite (GetSubstitution_dollar_free _ _ _ _ H1),
          (GetSubstitution_dollar_free _ _ _ _ H2) in Heq.
  assert (Hpath : (name1 ++ after = name2 ++ after)%string).
  { destruct external; repeat apply string_app_inv_head in Heq; exact Heq. }
  exact (string_app_inv_tail _ _ _ Hpath).
Qed.

Lemma buildUri_separates_names_witness :
  Js.split_at_first ":name" "/login/:name/authorized" = Some ("/login/", "/authorized")
  /\ buildUri (demo_config []) "/login/:name/authorized" "github" true
     = "http://localhost:3000/login/github/authorized"
  /\ "github" = "github".
Proof.
  split; [reflexivity|]. split; [reflexivity|].
  apply (buildUri_separates_names (demo_config []) "/login/:name/authorized"
           "github" "github" true).
  - discriminate.
  - reflexivity.
  - reflexivity.
  - reflexivity.
Defined.

(** ** [profiles] *)

Lemma lookup_put_entries (cfg : TPluginParams) (k : string)
    (names : list string) (acc : Js.Props ProfileUrls.Entry) :
  Js.lookup k
    (fold_left (fun result profile =>
                  ProfileUrls.put profile (ProfileUrls.entry cfg profile) result)
               names acc)
  = if existsb (String.eqb k) names && negb (String.eqb k "__proto__")
    then Some (ProfileUrls.entry cfg k)
    else Js.lookup k acc.
Proof.
  revert acc. induction names as [|profile names IH]; intros acc; simpl.
  - reflexivity.
  - rewrite IH. unfold ProfileUrls.put.
    destruct (String.eqb k profile) eqn:Hk.
    + apply String.eqb_eq in Hk. subst profile. simpl.
      destruct (String.eqb k "__proto__"); simpl.
      * rewrite andb_false_r. reflexivity.
      * rewrite andb_true_r, lookup_set, String.eqb_refl.
        destruct (existsb (String.eqb k) names); reflexivity.
    + simpl.
      destruct (existsb (String.eqb k) names && negb (String.eqb k "__proto__"));
        [reflexivity|].
      destruct (String.eqb profile "__proto__"); [reflexivity|].
      rewrite lookup_set, Hk. reflexivity.
Qed.

(** [profiles(...names)] has an entry exactly for the names asked for,
    or, when none is asked for, for the keys of the configured profiles;
    the entry of a name holds the three external URIs built from that
    name, whether or not the name is a registered profile.  The one name
    that never gets an entry is [__proto__]. *)
Theorem profiles_lists_requested
    (cfg : TPluginParams) (names : list string) (k : string) :
  Js.lookup k (ProfileUrls.profiles cfg names)
  = if existsb (String.eqb k)
         (match names with [] => map fst (profiles cfg) | _ => names end)
       && negb (String.eqb k "__proto__")
    then Some {| ProfileUrls.login := buildUri cfg (loginPath cfg) k true;
                 ProfileUrls.callback := buildUri cfg (authorizedPath cfg) k true;
                 ProfileUrls.logout := buildUri cfg (logoutPath cfg) k true |}
    else None.
Proof.
  unfold ProfileUrls.profiles. rewrite lookup_put_entries. reflexivity.
Qed.

Lemma lookup_some_key {V : Type} (k : string) (o : Js.Props V) (v : V) :
  Js.lookup k o = Some v -> existsb (String.eqb k) (map fst o) = true.
Proof.
  induction o as [|[k1 v1] o IH]; simpl; intros H; [discriminate|].
  destruct (String.eqb k k1); [reflexivity | exact (IH H)].
Qed.

Lemma profiles_entry_lookup (cfg : TPluginParams) (k : string) (p : TOAuth2Profile) :
  Js.lookup k (profiles cfg) = Some p -> k <> "__proto__" ->
  Js.lookup k (ProfileUrls.profiles cfg []) = Some (ProfileUrls.entry cfg k).
Proof.
  intros Hreg Hproto. unfold ProfileUrls.profiles. rewrite lookup_put_entries.
  rewrite (lookup_some_key _ _ _ Hreg).
  apply String.eqb_neq in Hproto. rewrite Hproto. reflexivity.
Qed.

(** ** One redirect URI *)

(** For a registered profile whose provider parameters do not name
    [redirect_uri], the [redirect_uri] of the authorization URL, the
    [redirect_uri] of the token request and the [callback] that
    [profiles()] reports for the profile are one and the same URI. *)
Theorem redirect_uri_is_the_callback
    (cfg : TPluginParams) (req : Context) (p : TOAuth2Profile)
    (tr_login : Trace) (out_login : Outcome HandlerResult)
    (tr : Trace) (out : Outcome HandlerResult)
    (o : Obs) (r : FetchRequest) (response : Response) :
  Js.lookup (name req) (profiles cfg) = Some p ->
  name req <> "__proto__" ->
  NoDup (map fst (params (auth (provider p)))) ->
  NoDup (map fst (params (token (provider p)))) ->
  Js.lookup "redirect_uri" (params (auth (provider p))) = None ->
  Js.lookup "redirect_uri" (params (token (provider p))) = None ->
  run (login_handler cfg req) tr_login out_login ->
  run (authorized_handler cfg req) tr out ->
  In o tr -> fetch_exchange o = Some (r, response) -> method r = POST ->
  exists location form entry,
    out_login = Returned (HRedirect location)
    /\ body r = Some form
    /\ Js.lookup (name req) (ProfileUrls.profiles cfg []) = Some entry
    /\ Js.lookup "redirect_uri" (searchParams location)
       = Some (Js.VStr (ProfileUrls.callback entry))
    /\ Js.lookup "redirect_uri" form = Some (Js.VStr (ProfileUrls.callback entry)).
Proof.
  intros Hreg Hproto Hna Hnt Ha Ht Hlogin Hrun Hin Hex Hpost.
  unfold login_handler, resolveProvider, globalProfiles, Js.has_property, Js.hasOwn in Hlogin.
  rewrite Hreg in Hlogin. cbn [orb negb bind call run] in Hlogin.
  destruct Hlogin as (state & rest & _ & _ & ->).
  destruct (callback_runs _ _ _ _ _ Hreg Hrun)
    as [[-> ->] | [[-> ->] | (decoded & credentials & resp & rest' & -> & Hrest)]].
  - in_cases Hin; discriminate.
  - in_cases Hin; discriminate.
  - simpl in Hin. destruct Hin as [<- | [<- | [<- | [<- | Hin]]]]; try discriminate.
    2: { rewrite (receive_token_fetches_get _ _ _ _ _ _ _ _ Hrest Hin Hex) in Hpost.
         discriminate. }
    simpl in Hex. injection Hex as <- <-.
    do 3 eexists. split; [reflexivity|]. split; [reflexivity|].
    split.
    { exact (profiles_entry_lookup cfg (name req) p Hreg Hproto). }
    cbn [ProfileUrls.callback ProfileUrls.entry]. split.
    + unfold redirect, buildUrl. cbn [searchParams].
      rewrite lookup_spread2 by (apply authParams_NoDup || exact Hna).
      rewrite Ha. reflexivity.
    + rewrite lookup_spread2 by (apply tokenParams_NoDup || exact Hnt).
      rewrite Ht. reflexivity.
Qed.

Lemma redirect_uri_is_the_callback_witness :
  let world :=
    demo_world true None
      (demo_provider_answers (Js.VObj false demo_token) Js.VNull) 1700000000123 in
  let cfg := demo_config [] in
  let req := demo_context "github" in
  exists location form,
    snd (exec world 0 (login_handler cfg req)) = Returned (HRedirect location)
    /\ Js.lookup "redirect_uri" (searchParams location)
       = Some (Js.VStr "http://localhost:3000/login/github/authorized")
    /\ Js.lookup "redirect_uri" form
       = Some (Js.VStr "http://localhost:3000/login/github/authorized").
Proof.
  intros world cfg req.
  destruct (redirect_uri_is_the_callback cfg req
              {| scope := ["user"]; provider := demo_provider "github.example" [] |}
              _ _
              (fst (exec world 0 (authorized_handler cfg req)))
              (snd (exec world 0 (authorized_handler cfg req)))
              (Observed
                 (Fetch (token_request cfg (demo_provider "github.example" [])
                           "github" "abc" "aWQ6c2VjcmV0"))
                 (json_response (Js.VObj false demo_token)))
              _ (json_response (Js.VObj false demo_token))
              eq_refl
              (fun H : "github" = "__proto__" => ltac:(discriminate H))
              (NoDup_nil _) (NoDup_nil _) eq_refl eq_refl
              (exec_run (login_handler cfg req) world 0)
              (exec_run (authorized_handler cfg req) world 0)
              (or_intror (or_intror (or_intror (or_introl eq_refl))))
              eq_refl eq_refl)
    as (location & form & entry & Hout & _ & Hentry & Hloc & Hform).
  exists location, form. split; [exact Hout|].
  assert (Hcb : ProfileUrls.callback entry = "http://localhost:3000/login/github/authorized").
  { vm_compute in Hentry. injection Hentry as <-. reflexivity. }
  rewrite <- Hcb. split; [exact Hloc | exact Hform].
Defined.

(* ================================================================== *)
(** * Content types *)

(** Every JSON content type passes the prefix test of the callback; the
    test lets through more, [application/jsonp] for one. *)
Lemma json_media_type_passes (r : Response) (ct : string) :
  content_type r = Some ct -> json_media_type ct = true ->
  json_content_type r = true.
Proof.
  intros Hct Hjson. unfold json_content_type, Js.startsWith. rewrite Hct.
  unfold json_media_type in Hjson.
  destruct (Js.split_at_first ";" ct) as [[essence parameters]|] eqn:Hsplit;
    apply String.eqb_eq in Hjson; subst.
  - rewrite (split_at_first_sound _ _ _ _ Hsplit). reflexivity.
  - reflexivity.
Qed.
